(** * convert_to_word.py: a line-oriented markdown to Word converter

    A shallow embedding of [src/convert_to_word.py] and the proofs of the
    properties its specification states about it.

    Conventions of the embedding:
    - a Python [str] is a [string]; a character is a code point in the
      range U+0000..U+00FF, and [isspace] / [isdigit] are Python's
      [str.isspace] / [str.isdigit] on that range;
    - Python exceptions are the [Raise] results of a small error monad;
    - a [while] loop is the [while] combinator, which runs a body under a
      condition and takes the number of condition tests it may perform
      (its fuel); the theorems show that the conversion needs at most
      [length lines + 1] of them;
    - the python-docx document is the list of the blocks appended to it;
      python-docx is outside the repository and its calls are taken to
      succeed. *)

From Stdlib Require Import String Ascii List Arith Bool Lia Sorted.
Import ListNotations.
Open Scope string_scope.
Open Scope list_scope.
Open Scope nat_scope.

(** ** Exceptions *)

Inductive error : Type :=
| IndexError        (* an index out of range: [s[k]], [l[k]] *)
| FileNotFoundError  (* opening a path that does not exist *)
| UnicodeDecodeError (* reading a file that is not text *)
| OutOfFuel.        (* the model's loop bound was reached: not a Python error *)

Inductive result (A : Type) : Type :=
| Ok (a : A)
| Raise (e : error).
Arguments Ok {A} a.
Arguments Raise {A} e.

Definition bind {A B : Type} (r : result A) (k : A -> result B) : result B :=
  match r with
  | Ok a => k a
  | Raise e => Raise e
  end.

Declare Scope result_scope.
Delimit Scope result_scope with result.
Notation "x <- r ;; k" := (bind r (fun x => k))
  (at level 61, r at next level, right associativity) : result_scope.
Notation "' p <- r ;; k" := (bind r (fun x => let 'p := x in k))
  (at level 61, p pattern, r at next level, right associativity) : result_scope.
Open Scope result_scope.

(** [while cond: body], with the state [st] the loop reads and writes. *)
Fixpoint while {St : Type} (fuel : nat) (cond : St -> result bool)
    (body : St -> result St) (st : St) : result St :=
  match fuel with
  | 0 => Raise OutOfFuel
  | S fuel' =>
      c <- cond st ;;
      if c then st' <- body st ;; while fuel' cond body st'
      else Ok st
  end.

(** ** The Python built-ins the script uses *)

Module Py.

(** [c.isspace()] for a code point below 256: the ASCII white space
    U+0009..U+000D and U+0020, the separators U+001C..U+001F, NEL U+0085
    and NBSP U+00A0. *)
Definition isspace (c : ascii) : bool :=
  let n := nat_of_ascii c in
  ((9 <=? n) && (n <=? 13)) || ((28 <=? n) && (n <=? 32))
  || (n =? 133) || (n =? 160).

(** [c.isdigit()] for a code point below 256: '0'..'9' and the superscript
    digits U+00B2, U+00B3 and U+00B9. *)
Definition isdigit (c : ascii) : bool :=
  let n := nat_of_ascii c in
  ((48 <=? n) && (n <=? 57)) || (n =? 178) || (n =? 179) || (n =? 185).

(** [not s] on a string: true on the empty string only. *)
Definition is_empty (s : string) : bool :=
  match s with
  | EmptyString => true
  | String _ _ => false
  end.

Fixpoint lstrip (s : string) : string :=
  match s with
  | EmptyString => EmptyString
  | String c r => if isspace c then lstrip r else s
  end.

Fixpoint rstrip (s : string) : string :=
  match s with
  | EmptyString => EmptyString
  | String c r =>
      let r' := rstrip r in
      if isspace c && is_empty r' then EmptyString else String c r'
  end.

(** [s.strip()] *)
Definition strip (s : string) : string := rstrip (lstrip s).

(** [s.startswith(p)] *)
Definition startswith (s p : string) : bool := String.prefix p s.
Arguments startswith : simpl never.

(** [s[k:]] *)
Fixpoint slice_from (k : nat) (s : string) : string :=
  match k, s with
  | 0, _ => s
  | S _, EmptyString => EmptyString
  | S k', String _ r => slice_from k' r
  end.

(** [s[:k]] *)
Fixpoint slice_to (k : nat) (s : string) : string :=
  match k, s with
  | 0, _ => EmptyString
  | S _, EmptyString => EmptyString
  | S k', String c r => String c (slice_to k' r)
  end.

(** [s[k]] *)
Definition str_getitem (s : string) (k : nat) : result ascii :=
  match String.get k s with
  | Some c => Ok c
  | None => Raise IndexError
  end.

(** [l[k]] *)
Definition getitem {A : Type} (l : list A) (k : nat) : result A :=
  match nth_error l k with
  | Some a => Ok a
  | None => Raise IndexError
  end.

(** [s.find(sep)]: the index of the first occurrence of [sep] in [s]
    ([None] for Python's -1). *)
Fixpoint find (sep s : string) : option nat :=
  if startswith s sep then Some 0
  else match s with
       | EmptyString => None
       | String _ r => option_map S (find sep r)
       end.

(** [sep in s] *)
Definition contains (sep s : string) : bool :=
  match find sep s with
  | Some _ => true
  | None => false
  end.

(** [s.split(sep, 1)]: at most one cut, at the first occurrence of [sep]. *)
Definition split_once (sep s : string) : list string :=
  match find sep s with
  | Some k => [slice_to k s; slice_from (k + String.length sep) s]
  | None => [s]
  end.

(** [s.split(c)] for a separator [c] of one character. *)
Fixpoint split (sep : ascii) (s : string) : list string :=
  match s with
  | EmptyString => [EmptyString]
  | String c r =>
      if Ascii.eqb c sep then EmptyString :: split sep r
      else match split sep r with
           | [] => [String c EmptyString]
           | h :: t => String c h :: t
           end
  end.

(** [''.join(l)] *)
Definition join (l : list string) : string := String.concat EmptyString l.

(** [enumerate(l)] *)
Definition enumerate {A : Type} (l : list A) : list (nat * A) :=
  combine (seq 0 (length l)) l.

End Py.

(** ** The document under construction

    python-docx is outside the repository.  The document is modelled as the
    sequence of the blocks the script appends to it, one constructor for
    each way the script builds a block. *)

Module Docx.

Inductive font : Type :=
| DefaultFont   (* the font of the style: Calibri 11pt for 'Normal' *)
| CourierNew.   (* [run.font.name = 'Courier New'] *)

Record run : Type := mkRun { run_text : string; run_font : font }.

Inductive block : Type :=
| Heading (level : nat) (text : string)
    (* [doc.add_heading(text, level=level)] *)
| CodeBlock (text : string)
    (* [doc.add_paragraph(text)], style 'No Spacing', runs in Courier New *)
| ListBullet (text : string)
    (* [doc.add_paragraph(text, style='List Bullet')] *)
| ListNumber (text : string)
    (* [doc.add_paragraph(text, style='List Number')] *)
| Paragraph (runs : list run).
    (* [doc.add_paragraph()] followed by one [p.add_run(part)] a part *)

Definition document : Type := list block.

(** [Document()] *)
Definition Document : document := [].

(** A block is appended at the end of the document. *)
Definition add (doc : document) (b : block) : document := doc ++ [b].

(** The text of a paragraph is the concatenation of the texts of its runs. *)
Definition runs_text (runs : list run) : string :=
  Py.join (map run_text runs).

End Docx.

(** ** The conversion loop of [convert_markdown_to_word] *)

Module Convert.
Import Py Docx.

Definition fence : string := "```".

(** The state of the main loop is the cursor [i] and the document; the state
    of the loop that collects a code block is the cursor and [code_lines]. *)
Definition state : Type := nat * document.
Definition fence_state : Type := nat * list string.

(** [i < len(lines) and not lines[i].strip().startswith('```')] *)
Definition collect_cond (lines : list string) (st : fence_state) : result bool :=
  let '(i, _) := st in
  if i <? length lines then
    l <- getitem lines i ;;
    Ok (negb (startswith (strip l) fence))
  else Ok false.

(** [code_lines.append(lines[i]); i += 1] *)
Definition collect_body (lines : list string) (st : fence_state)
  : result fence_state :=
  let '(i, code_lines) := st in
  l <- getitem lines i ;;
  Ok (i + 1, code_lines ++ [l]).

(** The runs of a regular paragraph: [for j, part in enumerate(parts)]. *)
Definition add_runs (parts : list string) : list run :=
  map (fun '(j, part) =>
         if j mod 2 =? 0 then mkRun part DefaultFont
         else mkRun part CourierNew)
      (enumerate parts).

(** [i < len(lines)] *)
Definition loop_cond (lines : list string) (st : state) : result bool :=
  let '(i, _) := st in Ok (i <? length lines).

(** The body of the main loop, lines 42 to 97 of the script. *)
Definition loop_body (fuel : nat) (lines : list string) (st : state)
  : result state :=
  let '(i, doc) := st in
  raw <- getitem lines i ;;
  let line := strip raw in
  if is_empty line then Ok (i + 1, doc)
  else if startswith line "# " then
    Ok (i + 1, add doc (Heading 1 (slice_from 2 line)))
  else if startswith line "## " then
    Ok (i + 1, add doc (Heading 2 (slice_from 3 line)))
  else if startswith line "### " then
    Ok (i + 1, add doc (Heading 3 (slice_from 4 line)))
  else if startswith line "#### " then
    Ok (i + 1, add doc (Heading 4 (slice_from 5 line)))
  else if startswith line fence then
    '(i', code_lines) <-
      while fuel (collect_cond lines) (collect_body lines) (i + 1, []) ;;
    match code_lines with
    | [] => Ok (i', doc)
    | _ :: _ => Ok (i', add doc (CodeBlock (join code_lines)))
    end
  else if startswith line "- " || startswith line "* " then
    Ok (i + 1, add doc (ListBullet (slice_from 2 line)))
  else
    c <- str_getitem line 0 ;;
    if isdigit c && contains ". " (slice_to 5 line) then
      text <- getitem (split_once ". " line) 1 ;;
      Ok (i + 1, add doc (ListNumber text))
    else
      Ok (i + 1, add doc (Paragraph (add_runs (split "`" line)))).

(** The loop of lines 40 to 97, from an empty document. *)
Definition convert_loop (fuel : nat) (lines : list string) : result document :=
  '(_, doc) <- while fuel (loop_cond lines) (loop_body fuel lines) (0, Document) ;;
  Ok doc.

(** The blocks of a list of lines; [length lines + 1] tests of each loop
    condition are enough (theorem [convert_terminates]). *)
Definition convert_lines (lines : list string) : result document :=
  convert_loop (S (length lines)) lines.

End Convert.

(** ** The script around the loop: files, messages and exit status *)

Module Script.
Import Py Docx Convert.

Inductive file : Type :=
| TextFile (content : string)  (* a text file, [content] as [f.read()] gives it *)
| DocxFile (doc : document).   (* a file written by [doc.save] *)

(** What the script reads and writes: the files by path, and the lines
    printed so far. *)
Record world : Type := mkWorld {
  fs : string -> option file;
  stdout : list string
}.

Inductive status : Type :=
| Exit (code : nat)      (* [sys.exit(code)]; 0 at the end of the script *)
| Uncaught (e : error).  (* an exception nobody handles: traceback, status 1 *)

Definition exit_status (s : status) : nat :=
  match s with
  | Exit code => code
  | Uncaught _ => 1
  end.

(** [print(line)] *)
Definition print (line : string) (w : world) : world :=
  mkWorld (fs w) (stdout w ++ [line]).

(** [os.path.exists(path)] *)
Definition path_exists (path : string) (w : world) : bool :=
  match fs w path with
  | Some _ => true
  | None => false
  end.

(** [doc.save(path)] *)
Definition save (doc : document) (path : string) (w : world) : world :=
  mkWorld (fun q => if String.eqb q path then Some (DocxFile doc) else fs w q)
          (stdout w).

Definition newline : ascii := "010"%char.

(** Lines 21 to 101: read the file, run the loop, save, report. *)
Definition convert_markdown_to_word (md_file docx_file : string) (w : world)
  : world * status :=
  match fs w md_file with
  | None => (w, Uncaught FileNotFoundError)
  | Some (DocxFile _) => (w, Uncaught UnicodeDecodeError)
  | Some (TextFile md_content) =>
      let lines := split newline md_content in
      match convert_lines lines with
      | Ok doc =>
          (print ("Successfully converted " ++ md_file ++ " to " ++ docx_file)%string
                 (save doc docx_file w),
           Exit 0)
      | Raise e => (w, Uncaught e)
      end
  end.

Definition md_file : string := "BONZAI_COMPREHENSIVE_SUMMARY.md".
Definition docx_file : string := "BONZAI_COMPREHENSIVE_SUMMARY.docx".

(** Lines 103 to 111, the [__main__] block. *)
Definition main (w : world) : world * status :=
  if negb (path_exists md_file w) then
    (print ("Error: " ++ md_file ++ " not found")%string w, Exit 1)
  else convert_markdown_to_word md_file docx_file w.

(** The whole script: the import guard of lines 10 to 19, then [main].
    [packages_installed] tells whether python-docx and markdown import. *)
Definition script (packages_installed : bool) (w : world) : world * status :=
  if packages_installed then main w
  else
    (print "Please install: pip install python-docx markdown"
           (print "Error: Required packages not installed." w),
     Exit 1).

End Script.

(** ** The notions the properties are stated with *)

Module Notions.
Import Py Docx Convert.

(** [s.isspace()], or [s] is empty *)
Fixpoint all_space (s : string) : bool :=
  match s with
  | EmptyString => true
  | String c r => isspace c && all_space r
  end.

(** [s.replace(c, '')] *)
Fixpoint remove (c : ascii) (s : string) : string :=
  match s with
  | EmptyString => EmptyString
  | String a r => if Ascii.eqb a c then remove c r else String a (remove c r)
  end.

(** [c in s] for a character [c] *)
Fixpoint has_char (c : ascii) (s : string) : bool :=
  match s with
  | EmptyString => false
  | String a r => Ascii.eqb a c || has_char c r
  end.

(** The test that keeps the code-block loop going on a line. *)
Definition not_fence (l : string) : bool := negb (startswith (strip l) fence).

Fixpoint take_while {A : Type} (f : A -> bool) (l : list A) : list A :=
  match l with
  | [] => []
  | a :: r => if f a then a :: take_while f r else []
  end.

(** The raw lines from index [j] up to the next fence line or to the end of
    the input: what the code-block loop collects from cursor [j]. *)
Definition code_run (lines : list string) (j : nat) : list string :=
  take_while not_fence (skipn j lines).

(** The prefix of a heading of level [n]: [n] times '#', then a space. *)
Fixpoint heading_prefix (n : nat) : string :=
  match n with
  | 0 => " "
  | S k => String "#" (heading_prefix k)
  end.

(** The tests of the [if] chain, named after the rules they select. *)
Definition heading_rule (line : string) : bool :=
  startswith line "# " || startswith line "## "
  || startswith line "### " || startswith line "#### ".

Definition fence_rule (line : string) : bool := startswith line fence.

Definition bullet_rule (line : string) : bool :=
  startswith line "- " || startswith line "* ".

(** [line[0].isdigit() and '. ' in line[:5]], on a line that has a first
    character. *)
Definition numbered_rule (line : string) : bool :=
  match line with
  | EmptyString => false
  | String c _ => isdigit c && contains ". " (slice_to 5 line)
  end.

(** The lines an iteration consumes after the one under the cursor: the
    body of the code block for a fence line, none for any other line. *)
Definition skipped (lines : list string) (i : nat) (raw : string) : nat :=
  if fence_rule (strip raw) then length (code_run lines (i + 1)) else 0.

(** The blocks the iteration at cursor [i] appends, read off the loop body
    run on an empty document. *)
Definition emitted (lines : list string) (i : nat) : list block :=
  match loop_body (S (length lines)) lines (i, Document) with
  | Ok (_, blocks) => blocks
  | Raise _ => []
  end.

(** The cursor after the iteration at cursor [i]. *)
Definition next (lines : list string) (i : nat) : nat :=
  match nth_error lines i with
  | Some raw => i + 1 + skipped lines i raw
  | None => i + 1
  end.

(** The cursors of the first [n] iterations from cursor [i] on: the lines at
    which the main loop classifies. *)
Fixpoint cursors (n : nat) (lines : list string) (i : nat) : list nat :=
  match n with
  | 0 => []
  | S n' =>
      if i <? length lines then i :: cursors n' lines (next lines i) else []
  end.

(** The cursors of all the iterations of a conversion. *)
Definition visited (lines : list string) : list nat :=
  cursors (length lines) lines 0.

(** The blocks of the output, each with the cursor of the iteration that
    appended it. *)
Definition origins (lines : list string) : list (nat * block) :=
  flat_map (fun i => map (pair i) (emitted lines i)) (visited lines).

(** The blocks of a line converted on its own. *)
Definition line_blocks (raw : string) : list block := emitted [raw] 0.

(** A line the empty-line rule skips. *)
Definition is_blank (raw : string) : bool := is_empty (strip raw).

(** The texts a block carries. *)
Definition block_texts (b : block) : list string :=
  match b with
  | Heading _ text => [text]
  | CodeBlock text => [text]
  | ListBullet text => [text]
  | ListNumber text => [text]
  | Paragraph runs => map run_text runs
  end.

End Notions.

(** * Properties *)

(** ** Facts about the built-ins *)

Module PyFacts.
Import Py Notions.

(** The built-ins on the inputs of the specification. *)
Example strip_examples :
  strip "  ## Scope  " = "## Scope"
  /\ strip "   " = EmptyString
  /\ strip "	code line" = "code line"
  /\ strip "a  b" = "a  b".
Proof. repeat split; reflexivity. Qed.

Example split_examples :
  split "`" "text `code" = ["text "; "code"]
  /\ split "`" "a`b`" = ["a"; "b"; EmptyString]
  /\ split "`" "plain" = ["plain"]
  /\ split_once ". " "10. item. more" = ["10"; "item. more"]
  /\ split_once ". " "3.14 is pi" = ["3.14 is pi"]
  /\ find ". " "10. item" = Some 2
  /\ slice_to 5 "3.14 is pi" = "3.14 "
  /\ slice_from 2 "# H" = "H".
Proof. repeat split; reflexivity. Qed.

(** [strip] takes white space, and only white space, off both ends. *)
Lemma lstrip_split (s : string) :
  exists l, s = (l ++ lstrip s)%string /\ all_space l = true.
Proof.
  induction s as [|c s [l [Hs Hl]]]; [now exists EmptyString|]. simpl.
  destruct (isspace c) eqn:E.
  - exists (String c l). simpl. now rewrite E, Hl, <- Hs.
  - now exists EmptyString.
Qed.

Lemma rstrip_split (s : string) :
  exists r, s = (rstrip s ++ r)%string /\ all_space r = true.
Proof.
  induction s as [|c s [r [Hs Hr]]]; [now exists EmptyString|]. simpl.
  destruct (isspace c && is_empty (rstrip s)) eqn:E.
  - exists (String c s). split; [reflexivity|].
    apply andb_true_iff in E as [Ec Es]. simpl. rewrite Ec.
    destruct (rstrip s); [|discriminate Es]. simpl in Hs. now subst.
  - exists r. simpl. now rewrite <- Hs.
Qed.

Lemma strip_split (s : string) :
  exists l r, s = (l ++ strip s ++ r)%string
              /\ all_space l = true /\ all_space r = true.
Proof.
  destruct (lstrip_split s) as [l [Hl Hsl]].
  destruct (rstrip_split (lstrip s)) as [r [Hr Hsr]].
  exists l, r. unfold strip. now rewrite <- Hr.
Qed.

Lemma strip_first (s : string) (c : ascii) (r : string) :
  strip s = String c r -> isspace c = false.
Proof.
  unfold strip. assert (H : forall t, lstrip s = String c t -> isspace c = false).
  { induction s as [|a s IH]; simpl; [discriminate|].
    destruct (isspace a) eqn:E; [exact IH | now intros t [= <- _]]. }
  destruct (lstrip s) as [|a t] eqn:El; simpl; [discriminate|].
  destruct (isspace a && is_empty (rstrip t)); [discriminate|].
  intros [= <- _]. now apply (H t).
Qed.

Lemma rstrip_last (s p : string) (c : ascii) :
  rstrip s = (p ++ String c EmptyString)%string -> isspace c = false.
Proof.
  revert p; induction s as [|a s IH]; intros p; simpl.
  - destruct p; discriminate.
  - destruct (isspace a && is_empty (rstrip s)) eqn:E; [destruct p; discriminate|].
    destruct p as [|b p]; simpl.
    + intros [= -> Hs]. rewrite Hs in E. simpl in E. now rewrite andb_true_r in E.
    + intros [= _ Hs]. now apply (IH p).
Qed.

Lemma strip_last (s p : string) (c : ascii) :
  strip s = (p ++ String c EmptyString)%string -> isspace c = false.
Proof. apply rstrip_last. Qed.

Lemma startswith_nil (s : string) : startswith s EmptyString = true.
Proof. destruct s; reflexivity. Qed.

Lemma startswith_cons (c d : ascii) (s p : string) :
  startswith (String c s) (String d p) = Ascii.eqb d c && startswith s p.
Proof.
  unfold startswith; simpl.
  destruct (ascii_dec d c) as [->|Hne].
  - now rewrite Ascii.eqb_refl.
  - apply Ascii.eqb_neq in Hne. now rewrite Hne.
Qed.

Lemma startswith_empty (d : ascii) (p : string) :
  startswith EmptyString (String d p) = false.
Proof. reflexivity. Qed.

(** [s.startswith(p)] holds exactly when [s] is [p] followed by [s[len(p):]]. *)
Lemma startswith_iff (s p : string) :
  startswith s p = true <-> exists r, s = (p ++ r)%string.
Proof.
  revert s; induction p as [|d p IH]; intros s.
  - rewrite startswith_nil. split; [exists s; reflexivity | reflexivity].
  - destruct s as [|c s].
    + rewrite startswith_empty. split; [discriminate | intros [r Hr]; discriminate].
    + rewrite startswith_cons, andb_true_iff, Ascii.eqb_eq, IH. split.
      * intros [-> [r ->]]. exists r; reflexivity.
      * intros [r Hr]. simpl in Hr. injection Hr as -> ->. split; [reflexivity | now exists r].
Qed.

Lemma slice_from_app (p r : string) :
  slice_from (String.length p) (p ++ r) = r.
Proof. induction p; simpl; auto. Qed.

Lemma slice_to_from (k : nat) (s : string) :
  (slice_to k s ++ slice_from k s)%string = s.
Proof.
  revert s; induction k as [|k IH]; intros [|c s]; simpl; try reflexivity.
  now rewrite IH.
Qed.

Lemma startswith_slice (s p : string) :
  startswith s p = true -> s = (p ++ slice_from (String.length p) s)%string.
Proof.
  intros H. apply startswith_iff in H as [r ->]. now rewrite slice_from_app.
Qed.

Lemma startswith_slice_to (n : nat) (s p : string) :
  startswith (slice_to n s) p = true -> startswith s p = true.
Proof.
  revert n s; induction p as [|d p IH]; intros n s H.
  - apply startswith_nil.
  - destruct n as [|n], s as [|c s]; simpl slice_to in H;
      try (rewrite startswith_empty in H; discriminate).
    rewrite startswith_cons in *. apply andb_true_iff in H as [-> H].
    simpl. eauto.
Qed.

(** [find] returns the first index at which [sep] starts. *)
Lemma find_first (sep s : string) (k : nat) :
  find sep s = Some k ->
  startswith (slice_from k s) sep = true /\
  forall j, j < k -> startswith (slice_from j s) sep = false.
Proof.
  revert k; induction s as [|c s IH]; intros k; simpl.
  - destruct (startswith EmptyString sep) eqn:E; [|discriminate].
    intros [= <-]. split; [exact E | intros j Hj; lia].
  - destruct (startswith (String c s) sep) eqn:E.
    + intros [= <-]. split; [exact E | intros j Hj; lia].
    + destruct (find sep s) as [k'|]; [|discriminate].
      intros [= <-]. destruct (IH k' eq_refl) as [H1 H2]. split; [exact H1|].
      intros [|j] Hj; [exact E | apply H2; lia].
Qed.

(** An occurrence in a slice [s[:n]] is an occurrence in [s]. *)
Lemma contains_slice_to (sep s : string) (n : nat) :
  contains sep (slice_to n s) = true -> contains sep s = true.
Proof.
  unfold contains. revert n; induction s as [|c s IH]; intros n.
  - destruct n; exact (fun H => H).
  - simpl find at 2. destruct (startswith (String c s) sep) eqn:E; [reflexivity|].
    destruct n as [|n]; simpl slice_to.
    + simpl. destruct sep; [discriminate E | discriminate].
    + simpl find. destruct (startswith (String c (slice_to n s)) sep) eqn:E'.
      * apply (startswith_slice_to (S n) (String c s)) in E'. congruence.
      * specialize (IH n). destruct (find sep (slice_to n s)); [|discriminate].
        intros _. destruct (find sep s); [reflexivity | now apply IH].
Qed.

Lemma split_once_found (sep s : string) :
  contains sep s = true ->
  exists k, find sep s = Some k /\
            split_once sep s = [slice_to k s; slice_from (k + String.length sep) s].
Proof.
  unfold contains, split_once. destruct (find sep s) as [k|]; [|discriminate].
  intros _. now exists k.
Qed.

Lemma split_nonempty (sep : ascii) (s : string) : split sep s <> [].
Proof.
  destruct s as [|c s]; simpl; [discriminate|].
  destruct (Ascii.eqb c sep); [discriminate|]. destruct (split sep s); discriminate.
Qed.

Lemma join_cons (x : string) (l : list string) :
  join (x :: l) = (x ++ join l)%string.
Proof.
  unfold join. destruct l as [|y l]; simpl; [|reflexivity].
  induction x; simpl; congruence.
Qed.

(** [''.join(l)] is the concatenation of the elements of [l]. *)
Lemma join_fold (l : list string) :
  join l = fold_right String.append EmptyString l.
Proof. induction l as [|x l IH]; [reflexivity|]. now rewrite join_cons, IH. Qed.

(** The pieces of [s.split(c)] are what is left of [s] without its [c]s. *)
Lemma join_split (c : ascii) (s : string) : join (split c s) = remove c s.
Proof.
  induction s as [|a s IH]; [reflexivity|]. simpl.
  destruct (Ascii.eqb a c).
  - now rewrite join_cons.
  - destruct (split c s) as [|h t] eqn:E; [now apply split_nonempty in E|].
    rewrite join_cons in *. simpl. now rewrite IH.
Qed.

(** Putting the separator back between the pieces gives [s] again. *)
Lemma concat_split (c : ascii) (s : string) :
  String.concat (String c EmptyString) (split c s) = s.
Proof.
  induction s as [|a s IH]; [reflexivity|]. cbn [split].
  destruct (split c s) as [|h t] eqn:E; [now apply split_nonempty in E|].
  destruct (Ascii.eqb a c) eqn:Eac.
  - apply Ascii.eqb_eq in Eac as ->.
    change (String.concat (String c EmptyString) (EmptyString :: h :: t))
      with (String c (String.concat (String c EmptyString) (h :: t))).
    now rewrite IH.
  - destruct t as [|h' t].
    + simpl in *. now rewrite IH.
    + change (String.concat (String c EmptyString) (String a h :: h' :: t))
        with (String a (h ++ String c EmptyString ++ String.concat (String c EmptyString) (h' :: t))%string).
      change (String.concat (String c EmptyString) (h :: h' :: t))
        with (h ++ String c EmptyString ++ String.concat (String c EmptyString) (h' :: t))%string in IH.
      now rewrite IH.
Qed.

(** No piece of [s.split(c)] contains [c]. *)
Lemma split_no_sep (c : ascii) (s : string) :
  Forall (fun piece => has_char c piece = false) (split c s).
Proof.
  induction s as [|a s IH]; simpl.
  - repeat constructor.
  - destruct (Ascii.eqb a c) eqn:Eac.
    + constructor; [reflexivity | exact IH].
    + destruct (split c s) as [|h t]; [repeat constructor; simpl; now rewrite Eac|].
      inversion IH as [|? ? Hh Ht]; subst. constructor; [|exact Ht].
      simpl. now rewrite Eac.
Qed.

Lemma getitem_lt {A : Type} (l : list A) (k : nat) :
  k < length l -> exists a, nth_error l k = Some a /\ getitem l k = Ok a.
Proof.
  intros H. unfold getitem. destruct (nth_error l k) as [a|] eqn:E.
  - now exists a.
  - apply nth_error_None in E. lia.
Qed.

Lemma getitem_nth {A : Type} (l : list A) (k : nat) (a : A) :
  nth_error l k = Some a -> getitem l k = Ok a.
Proof. unfold getitem. now intros ->. Qed.

End PyFacts.

(** ** Facts about the two loops *)

Module ConvertFacts.
Import Py Docx Convert Notions PyFacts.

Lemma skipn_nth {A : Type} (l : list A) (i : nat) (a : A) :
  nth_error l i = Some a -> skipn i l = a :: skipn (S i) l.
Proof.
  revert i; induction l as [|x l IH]; intros [|i] H; simpl in *; try discriminate.
  - now injection H as ->.
  - now apply IH.
Qed.

Lemma take_while_length {A : Type} (f : A -> bool) (l : list A) :
  length (take_while f l) <= length l.
Proof. induction l as [|a l IH]; simpl; [lia|]. destruct (f a); simpl; lia. Qed.

Lemma code_run_length (lines : list string) (j : nat) :
  length (code_run lines j) <= length lines - j.
Proof.
  unfold code_run. rewrite <- length_skipn. apply take_while_length.
Qed.

Lemma code_run_step (lines : list string) (j : nat) (l : string) :
  nth_error lines j = Some l ->
  code_run lines j = if not_fence l then l :: code_run lines (S j) else [].
Proof. intros H. unfold code_run. now rewrite (skipn_nth _ _ _ H). Qed.

Lemma code_run_end (lines : list string) (j : nat) :
  length lines <= j -> code_run lines j = [].
Proof. intros H. unfold code_run. now rewrite skipn_all2. Qed.

(** The run stops in front of a fence line, or at the end of the input. *)
Lemma code_run_stops (lines : list string) (j : nat) (l : string) :
  nth_error lines (j + length (code_run lines j)) = Some l ->
  not_fence l = false.
Proof.
  remember (length lines - j) as n eqn:Hn. revert j Hn.
  induction n as [|n IH]; intros j Hn H.
  - rewrite code_run_end in H by lia. simpl in H. rewrite Nat.add_0_r in H.
    assert (j < length lines) by (apply nth_error_Some; congruence). lia.
  - destruct (nth_error lines j) as [x|] eqn:Hx.
    + rewrite (code_run_step _ _ _ Hx) in H. destruct (not_fence x) eqn:Ex.
      * simpl in H. rewrite Nat.add_succ_r in H. apply (IH (S j)); [lia | exact H].
      * simpl in H. rewrite Nat.add_0_r in H. congruence.
    + apply nth_error_None in Hx. lia.
Qed.

(** When the first fence line from [a] on is at index [j], the run from [a]
    is the slice [lines[a:j]]. *)
Lemma code_run_until (lines : list string) (a j : nat) (closing : string) :
  a <= j ->
  (forall k l, a <= k < j -> nth_error lines k = Some l -> not_fence l = true) ->
  nth_error lines j = Some closing -> not_fence closing = false ->
  code_run lines a = firstn (j - a) (skipn a lines).
Proof.
  intros Haj Hbody Hj Hc.
  remember (j - a) as n eqn:Hn. revert a Haj Hbody Hn.
  induction n as [|n IH]; intros a Haj Hbody Hn.
  - assert (a = j) as -> by lia. rewrite (code_run_step _ _ _ Hj), Hc. reflexivity.
  - assert (Ha : a < length lines).
    { assert (j < length lines) by (apply nth_error_Some; congruence). lia. }
    destruct (getitem_lt lines a Ha) as [x [Hx _]].
    rewrite (code_run_step _ _ _ Hx), (Hbody a x) by (auto; lia).
    rewrite (skipn_nth _ _ _ Hx). simpl. f_equal.
    apply IH; [lia | | lia]. intros k l Hk. apply Hbody. lia.
Qed.

(** The code-block loop started at cursor [i] collects [code_run lines i]
    and leaves the cursor just after it. *)
Lemma collect_run (lines : list string) (fuel i : nat) (acc : list string) :
  length lines - i < fuel ->
  while fuel (collect_cond lines) (collect_body lines) (i, acc)
  = Ok (i + length (code_run lines i), acc ++ code_run lines i).
Proof.
  revert i acc; induction fuel as [|fuel IH]; intros i acc Hfuel; [lia|].
  cbn [while]. unfold collect_cond at 1.
  destruct (i <? length lines) eqn:E.
  - apply Nat.ltb_lt in E. destruct (getitem_lt lines i E) as [l [Hl Hg]].
    rewrite Hg. cbn [bind]. rewrite (code_run_step _ _ _ Hl).
    fold (not_fence l). destruct (not_fence l).
    + unfold collect_body at 1. rewrite Hg. cbn [bind].
      rewrite IH by lia. rewrite Nat.add_1_r. simpl length.
      rewrite <- app_assoc. simpl. f_equal. f_equal. lia.
    + simpl. now rewrite Nat.add_0_r, app_nil_r.
  - apply Nat.ltb_ge in E. rewrite code_run_end by lia. cbn [bind].
    simpl. now rewrite Nat.add_0_r, app_nil_r.
Qed.


(** *** One iteration of the main loop *)

Lemma startswith_head (c d : ascii) (s p : string) :
  startswith (String c s) (String d p) = true -> c = d.
Proof.
  rewrite startswith_cons. intros H. apply andb_true_iff in H as [H _].
  now apply Ascii.eqb_eq in H.
Qed.

(** Two prefixes with different first characters exclude each other. *)
Lemma startswith_clash (line p q : string) (a b : ascii) :
  startswith line (String a p) = true ->
  Ascii.eqb b a = false ->
  startswith line (String b q) = false.
Proof.
  intros H Hab. destruct line as [|c r]; [reflexivity|].
  apply startswith_head in H as ->. rewrite startswith_cons. now rewrite Hab.
Qed.

Lemma startswith_nonempty (line p : string) (a : ascii) :
  startswith line (String a p) = true -> is_empty line = false.
Proof. destruct line; [discriminate | reflexivity]. Qed.

Lemma fence_not_heading (line : string) :
  fence_rule line = true -> heading_rule line = false.
Proof.
  unfold fence_rule, fence, heading_rule. intros H.
  now rewrite !(startswith_clash _ _ _ _ _ H) by reflexivity.
Qed.

(** The code-fence branch of the loop body. *)
Lemma loop_body_fence (fuel : nat) (lines : list string) (i : nat)
    (raw : string) (doc : document) :
  length lines < fuel ->
  nth_error lines i = Some raw ->
  fence_rule (strip raw) = true ->
  loop_body fuel lines (i, doc)
  = Ok (i + 1 + length (code_run lines (i + 1)),
        match code_run lines (i + 1) with
        | [] => doc
        | _ :: _ => doc ++ [CodeBlock (join (code_run lines (i + 1)))]
        end).
Proof.
  intros Hfuel Hi Hf. unfold loop_body. rewrite (getitem_nth _ _ _ Hi). cbn [bind].
  pose proof (fence_not_heading _ Hf) as Hh. unfold heading_rule in Hh.
  apply orb_false_iff in Hh as [Hh H4]. apply orb_false_iff in Hh as [Hh H3].
  apply orb_false_iff in Hh as [H1 H2].
  unfold fence_rule in Hf.
  rewrite (startswith_nonempty _ _ _ Hf), H1, H2, H3, H4, Hf.
  rewrite collect_run by lia. cbn [bind app].
  destruct (code_run lines (i + 1)); reflexivity.
Qed.

(** Every other branch moves the cursor by one. *)
Lemma loop_body_line (fuel : nat) (lines : list string) (i : nat)
    (raw : string) (doc : document) :
  nth_error lines i = Some raw ->
  fence_rule (strip raw) = false ->
  exists blocks,
    length blocks <= 1 /\
    forall fuel' doc',
      loop_body fuel' lines (i, doc') = Ok (i + 1, doc' ++ blocks).
Proof.
  intros Hi Hf. unfold fence_rule in Hf.
  assert (Hbody : forall fuel' doc',
    loop_body fuel' lines (i, doc') =
    (let line := strip raw in
     if is_empty line then Ok (i + 1, doc')
     else if startswith line "# " then
       Ok (i + 1, add doc' (Heading 1 (slice_from 2 line)))
     else if startswith line "## " then
       Ok (i + 1, add doc' (Heading 2 (slice_from 3 line)))
     else if startswith line "### " then
       Ok (i + 1, add doc' (Heading 3 (slice_from 4 line)))
     else if startswith line "#### " then
       Ok (i + 1, add doc' (Heading 4 (slice_from 5 line)))
     else if startswith line "- " || startswith line "* " then
       Ok (i + 1, add doc' (ListBullet (slice_from 2 line)))
     else
       c <- str_getitem line 0 ;;
       if isdigit c && contains ". " (slice_to 5 line) then
         text <- getitem (split_once ". " line) 1 ;;
         Ok (i + 1, add doc' (ListNumber text))
       else
         Ok (i + 1, add doc' (Paragraph (add_runs (split "`" line)))))).
  { intros fuel' doc'. unfold loop_body. rewrite (getitem_nth _ _ _ Hi). cbn [bind].
    cbv zeta. now rewrite Hf. }
  cbv zeta in Hbody. unfold add in Hbody.
  destruct (is_empty (strip raw)) eqn:Ee.
  { exists []. split; [simpl; lia|]. intros. now rewrite Hbody, app_nil_r. }
  destruct (startswith (strip raw) "# ").
  { eexists [_]. split; [simpl; lia|]. intros. now rewrite Hbody. }
  destruct (startswith (strip raw) "## ").
  { eexists [_]. split; [simpl; lia|]. intros. now rewrite Hbody. }
  destruct (startswith (strip raw) "### ").
  { eexists [_]. split; [simpl; lia|]. intros. now rewrite Hbody. }
  destruct (startswith (strip raw) "#### ").
  { eexists [_]. split; [simpl; lia|]. intros. now rewrite Hbody. }
  destruct (startswith (strip raw) "- " || startswith (strip raw) "* ").
  { eexists [_]. split; [simpl; lia|]. intros. now rewrite Hbody. }
  destruct (strip raw) as [|c r] eqn:El; [discriminate|].
  unfold str_getitem in Hbody. cbn [String.get bind] in Hbody.
  destruct (isdigit c && contains ". " (slice_to 5 (String c r))) eqn:En.
  - apply andb_true_iff in En as [_ En]. apply contains_slice_to in En.
    destruct (split_once_found _ _ En) as [k [_ Hs]]. rewrite Hs in Hbody.
    cbn [getitem nth_error bind] in Hbody.
    eexists [_]. split; [simpl; lia|]. intros. now rewrite Hbody.
  - eexists [_]. split; [simpl; lia|]. intros. now rewrite Hbody.
Qed.

(** An iteration at a cursor inside the input returns: it moves the cursor
    past the line and the lines it consumed, and appends [emitted lines i],
    at most one block, whatever the document and the fuel. *)
Lemma loop_body_frame (fuel : nat) (lines : list string) (i : nat)
    (raw : string) (doc : document) :
  length lines < fuel ->
  nth_error lines i = Some raw ->
  loop_body fuel lines (i, doc)
  = Ok (i + 1 + skipped lines i raw, doc ++ emitted lines i)
  /\ length (emitted lines i) <= 1.
Proof.
  intros Hfuel Hi. unfold skipped, emitted.
  destruct (fence_rule (strip raw)) eqn:Hf.
  - rewrite (loop_body_fence fuel _ _ _ doc Hfuel Hi Hf).
    rewrite (loop_body_fence (S (length lines)) _ _ _ Document (Nat.lt_succ_diag_r _) Hi Hf).
    destruct (code_run lines (i + 1)); simpl; rewrite ?app_nil_r; split; auto.
  - destruct (loop_body_line fuel lines i raw doc Hi Hf) as [blocks [Hlen Hb]].
    rewrite !Hb. now rewrite Nat.add_0_r.
Qed.

Lemma skipped_bound (lines : list string) (i : nat) (raw : string) :
  nth_error lines i = Some raw -> i + 1 + skipped lines i raw <= length lines.
Proof.
  intros Hi. assert (i < length lines) by (apply nth_error_Some; congruence).
  unfold skipped. destruct (fence_rule (strip raw)); [|lia].
  pose proof (code_run_length lines (i + 1)). lia.
Qed.

(** *** The main loop *)

Lemma next_gt (lines : list string) (i : nat) : i < next lines i.
Proof. unfold next. destruct (nth_error lines i); lia. Qed.

Lemma next_le (lines : list string) (i : nat) :
  i < length lines -> next lines i <= length lines.
Proof.
  intros H. unfold next. destruct (nth_error lines i) as [raw|] eqn:E.
  - now apply skipped_bound.
  - apply nth_error_None in E. lia.
Qed.

Lemma cursors_fuel (lines : list string) (n m i : nat) :
  length lines - i <= n -> length lines - i <= m ->
  cursors n lines i = cursors m lines i.
Proof.
  revert m i; induction n as [|n IH]; intros [|m] i Hn Hm; simpl; try reflexivity.
  - assert (E : (i <? length lines) = false) by (apply Nat.ltb_ge; lia). now rewrite E.
  - assert (E : (i <? length lines) = false) by (apply Nat.ltb_ge; lia). now rewrite E.
  - destruct (i <? length lines) eqn:E; [|reflexivity]. f_equal.
    pose proof (next_gt lines i). apply IH; lia.
Qed.

Lemma cursors_from (lines : list string) (n i : nat) :
  Forall (fun k => i <= k < length lines) (cursors n lines i).
Proof.
  revert i; induction n as [|n IH]; intros i; simpl; [constructor|].
  destruct (i <? length lines) eqn:E; [|constructor].
  apply Nat.ltb_lt in E. constructor; [lia|].
  pose proof (next_gt lines i). eapply Forall_impl; [|apply IH].
  simpl. intros k Hk. lia.
Qed.

Lemma cursors_sorted (lines : list string) (n i : nat) :
  StronglySorted lt (cursors n lines i).
Proof.
  revert i; induction n as [|n IH]; intros i; simpl; [constructor|].
  destruct (i <? length lines); constructor; [apply IH|].
  pose proof (next_gt lines i). eapply Forall_impl; [|apply cursors_from].
  simpl. intros k Hk. lia.
Qed.

(** The main loop run from cursor [i]: it stops with the cursor on the end of
    the input, having appended the blocks of its iterations in their order. *)
Lemma main_loop (lines : list string) (fuel n i : nat) (doc : document) :
  length lines < fuel -> length lines - i < n ->
  while n (loop_cond lines) (loop_body fuel lines) (i, doc)
  = Ok (Nat.max i (length lines),
        doc ++ concat (map (emitted lines) (cursors n lines i))).
Proof.
  intros Hfuel. revert i doc; induction n as [|n IH]; intros i doc Hn; [lia|].
  cbn [while cursors]. unfold loop_cond at 1. cbn [bind].
  destruct (i <? length lines) eqn:E.
  - apply Nat.ltb_lt in E. destruct (getitem_lt lines i E) as [raw [Hi _]].
    destruct (loop_body_frame fuel lines i raw doc Hfuel Hi) as [-> _].
    cbn [bind]. pose proof (skipped_bound lines i raw Hi) as Hb.
    rewrite IH by lia. unfold next at 1. rewrite Hi.
    cbn [map concat]. rewrite app_assoc. f_equal. f_equal. lia.
  - apply Nat.ltb_ge in E. simpl. rewrite app_nil_r. f_equal. f_equal. lia.
Qed.

(** The conversion returns the blocks of the visited cursors, in the order
    of the cursors, for every fuel above the number of lines. *)
Lemma convert_loop_blocks (lines : list string) (fuel : nat) :
  length lines < fuel ->
  convert_loop fuel lines
  = Ok (concat (map (emitted lines) (visited lines))).
Proof.
  intros Hfuel. unfold convert_loop, Document.
  rewrite main_loop by lia. cbn [bind app]. unfold visited.
  now rewrite (cursors_fuel lines fuel (length lines) 0) by lia.
Qed.

(** *** Which branch appended a block *)

Lemma not_appended {A : Type} (doc : list A) (b : A) : doc <> doc ++ [b].
Proof.
  intros H. apply (f_equal (@length A)) in H. rewrite length_app in H.
  simpl in H. lia.
Qed.

Lemma appended_eq {A : Type} (doc : list A) (a b : A) :
  doc ++ [a] = doc ++ [b] -> a = b.
Proof. intros H. now apply app_inj_tail in H as [_ H]. Qed.

(** Closes a goal from [H : Ok (_, d) = Ok (_, doc ++ [b])] when [d] is
    [doc] itself or [doc] with a block of another kind. *)
Ltac wrong_block H :=
  injection H as _ H;
  first [ now apply not_appended in H
        | apply appended_eq in H; discriminate H ].

(** A heading block comes out of one of the four heading branches. *)
Lemma heading_inv (fuel : nat) (lines : list string) (i i' : nat)
    (raw : string) (doc : document) (N : nat) (text : string) :
  nth_error lines i = Some raw ->
  loop_body fuel lines (i, doc) = Ok (i', doc ++ [Heading N text]) ->
  1 <= N <= 4 /\
  startswith (strip raw) (heading_prefix N) = true /\
  text = slice_from (N + 1) (strip raw).
Proof.
  intros Hi H. unfold loop_body in H. rewrite (getitem_nth _ _ _ Hi) in H.
  cbn [bind] in H. cbv zeta in H. unfold add in H.
  destruct (is_empty (strip raw)); [wrong_block H|].
  destruct (startswith (strip raw) "# ") eqn:H1.
  { injection H as _ H. apply appended_eq in H. injection H as <- <-.
    repeat split; (lia || assumption). }
  destruct (startswith (strip raw) "## ") eqn:H2.
  { injection H as _ H. apply appended_eq in H. injection H as <- <-.
    repeat split; (lia || assumption). }
  destruct (startswith (strip raw) "### ") eqn:H3.
  { injection H as _ H. apply appended_eq in H. injection H as <- <-.
    repeat split; (lia || assumption). }
  destruct (startswith (strip raw) "#### ") eqn:H4.
  { injection H as _ H. apply appended_eq in H. injection H as <- <-.
    repeat split; (lia || assumption). }
  destruct (startswith (strip raw) fence).
  { destruct (while fuel (collect_cond lines) (collect_body lines) (i + 1, []))
      as [[j code_lines]|e]; [|discriminate H].
    cbn [bind] in H. destruct code_lines; wrong_block H. }
  destruct (startswith (strip raw) "- " || startswith (strip raw) "* ");
    [wrong_block H|].
  destruct (str_getitem (strip raw) 0) as [c|e]; [|discriminate H].
  cbn [bind] in H.
  destruct (isdigit c && contains ". " (slice_to 5 (strip raw))).
  - destruct (getitem (split_once ". " (strip raw)) 1) as [t|e];
      [|discriminate H].
    cbn [bind] in H. wrong_block H.
  - wrong_block H.
Qed.

(** A line that starts with the prefix of level [N] takes the branch of
    level [N]. *)
Lemma heading_branch (fuel : nat) (lines : list string) (i : nat)
    (raw : string) (doc : document) (N : nat) :
  nth_error lines i = Some raw ->
  1 <= N <= 4 ->
  startswith (strip raw) (heading_prefix N) = true ->
  loop_body fuel lines (i, doc)
  = Ok (i + 1, doc ++ [Heading N (slice_from (N + 1) (strip raw))]).
Proof.
  intros Hi HN H. unfold loop_body. rewrite (getitem_nth _ _ _ Hi).
  cbn [bind]. cbv zeta. unfold add.
  apply startswith_iff in H as [r Hr]. rewrite Hr.
  assert (N = 1 \/ N = 2 \/ N = 3 \/ N = 4) as [-> | [-> | [-> | ->]]] by lia;
    cbn [heading_prefix String.append is_empty];
    repeat (rewrite startswith_cons; cbn [Ascii.eqb Bool.eqb andb]);
    rewrite ?startswith_nil; reflexivity.
Qed.

(** *** The list and paragraph branches *)

Lemma take_while_firstn {A : Type} (f : A -> bool) (l : list A) :
  take_while f l = firstn (length (take_while f l)) l.
Proof.
  induction l as [|a l IH]; [reflexivity|]. simpl.
  destruct (f a); [simpl; now rewrite <- IH | reflexivity].
Qed.

Lemma take_while_all {A : Type} (f : A -> bool) (l : list A) :
  Forall (fun a => f a = true) (take_while f l).
Proof.
  induction l as [|a l IH]; simpl; [constructor|].
  destruct (f a) eqn:E; now constructor.
Qed.

Lemma bullet_branch (fuel : nat) (lines : list string) (i : nat)
    (raw : string) (doc : document) :
  nth_error lines i = Some raw ->
  bullet_rule (strip raw) = true ->
  loop_body fuel lines (i, doc)
  = Ok (i + 1, doc ++ [ListBullet (slice_from 2 (strip raw))]).
Proof.
  intros Hi Hb. unfold loop_body. rewrite (getitem_nth _ _ _ Hi).
  cbn [bind]. cbv zeta. unfold add, fence. unfold bullet_rule in Hb. rewrite Hb.
  apply orb_true_iff in Hb as [Hb|Hb];
    rewrite (startswith_nonempty _ _ _ Hb);
    now rewrite !(startswith_clash _ _ _ _ _ Hb) by reflexivity.
Qed.

Lemma digit_first (c d : ascii) (r p : string) :
  isdigit c = true -> isdigit d = false ->
  startswith (String c r) (String d p) = false.
Proof.
  intros Hc Hd. rewrite startswith_cons.
  destruct (Ascii.eqb_spec d c) as [->|_]; [congruence | reflexivity].
Qed.

Lemma numbered_branch (fuel : nat) (lines : list string) (i : nat)
    (raw : string) (doc : document) :
  nth_error lines i = Some raw ->
  numbered_rule (strip raw) = true ->
  exists k,
    find ". " (strip raw) = Some k /\
    loop_body fuel lines (i, doc)
    = Ok (i + 1, doc ++ [ListNumber (slice_from (k + 2) (strip raw))]).
Proof.
  intros Hi Hn. unfold loop_body. rewrite (getitem_nth _ _ _ Hi).
  cbn [bind]. cbv zeta. unfold add, fence.
  destruct (strip raw) as [|c r]; [discriminate Hn|].
  cbn [numbered_rule] in Hn. pose proof Hn as Hrule.
  apply andb_true_iff in Hn as [Hc Hs].
  rewrite !(digit_first c _ r _ Hc) by reflexivity.
  unfold str_getitem. cbn [is_empty orb String.get bind]. rewrite Hrule.
  apply contains_slice_to in Hs.
  destruct (split_once_found _ _ Hs) as [k [Hk Hsplit]].
  exists k. split; [exact Hk|]. rewrite Hsplit. reflexivity.
Qed.

Lemma paragraph_branch (fuel : nat) (lines : list string) (i : nat)
    (raw : string) (doc : document) :
  nth_error lines i = Some raw ->
  is_empty (strip raw) = false ->
  heading_rule (strip raw) = false ->
  fence_rule (strip raw) = false ->
  bullet_rule (strip raw) = false ->
  numbered_rule (strip raw) = false ->
  loop_body fuel lines (i, doc)
  = Ok (i + 1, doc ++ [Paragraph (add_runs (split "`" (strip raw)))]).
Proof.
  intros Hi He Hh Hf Hb Hn. unfold loop_body. rewrite (getitem_nth _ _ _ Hi).
  cbn [bind]. cbv zeta. unfold add.
  unfold heading_rule in Hh. unfold fence_rule in Hf. unfold bullet_rule in Hb.
  apply orb_false_iff in Hh as [Hh H4]. apply orb_false_iff in Hh as [Hh H3].
  apply orb_false_iff in Hh as [H1 H2].
  rewrite He, H1, H2, H3, H4, Hf, Hb.
  destruct (strip raw) as [|c r]; [discriminate He|].
  cbn [numbered_rule] in Hn. unfold str_getitem. cbn [String.get bind].
  now rewrite Hn.
Qed.

(** The runs carry the parts, in order; the parts of even index in the
    default font, the parts of odd index in Courier New. *)
Lemma add_runs_from (parts : list string) (k : nat) :
  let runs :=
    map (fun '(j, part) =>
           if j mod 2 =? 0 then mkRun part DefaultFont
           else mkRun part CourierNew)
        (combine (seq k (length parts)) parts) in
  map run_text runs = parts /\
  forall j r, nth_error runs j = Some r ->
              run_font r = if (k + j) mod 2 =? 0 then DefaultFont else CourierNew.
Proof.
  revert k; induction parts as [|x parts IH]; intros k; cbv zeta.
  - split; [reflexivity|]. intros [|j] r H; discriminate H.
  - destruct (IH (S k)) as [IH1 IH2]. cbn [length seq combine map]. split.
    + f_equal; [|exact IH1]. now destruct (k mod 2 =? 0).
    + intros [|j] r H.
      * revert H. rewrite Nat.add_0_r.
        destruct (k mod 2 =? 0); intros [= <-]; reflexivity.
      * replace (k + S j) with (S k + j) by lia. apply IH2. exact H.
Qed.

Lemma add_runs_text (parts : list string) :
  map run_text (add_runs parts) = parts.
Proof. exact (proj1 (add_runs_from parts 0)). Qed.

Lemma add_runs_font (parts : list string) (j : nat) (r : run) :
  nth_error (add_runs parts) j = Some r ->
  run_font r = if j mod 2 =? 0 then DefaultFont else CourierNew.
Proof. exact (proj2 (add_runs_from parts 0) j r). Qed.

(** *** The cursor after a closed code block *)

(** When the fence opened at line [i] is closed at line [j], the iteration at
    [i] stops with the cursor on line [j], and the iteration that follows
    takes line [j] for the opening of another code block. *)
Lemma closing_fence_under_cursor (fuel : nat) (lines : list string)
    (i j : nat) (opening closing : string) (doc : document) :
  length lines < fuel ->
  nth_error lines i = Some opening -> fence_rule (strip opening) = true ->
  i < j ->
  (forall k l, i < k < j -> nth_error lines k = Some l ->
               fence_rule (strip l) = false) ->
  nth_error lines j = Some closing -> fence_rule (strip closing) = true ->
  exists doc',
    loop_body fuel lines (i, doc) = Ok (j, doc')
    /\ exists doc'',
         loop_body fuel lines (j, doc')
         = Ok (j + 1 + length (code_run lines (j + 1)), doc'').
Proof.
  intros Hfuel Hopen Hofence Hij Hbody Hclose Hcfence.
  assert (Hj : j < length lines) by (apply nth_error_Some; congruence).
  assert (Hrun : code_run lines (i + 1) = firstn (j - (i + 1)) (skipn (i + 1) lines)).
  { apply (code_run_until lines (i + 1) j closing); [lia | | exact Hclose |].
    - intros k l Hk Hl. unfold not_fence. apply negb_true_iff.
      apply (Hbody k l); [lia | exact Hl].
    - unfold not_fence. now apply negb_false_iff. }
  rewrite (loop_body_fence fuel _ _ _ doc Hfuel Hopen Hofence).
  replace (i + 1 + length (code_run lines (i + 1))) with j.
  - eexists. split; [reflexivity|].
    rewrite (loop_body_fence fuel _ _ _ _ Hfuel Hclose Hcfence). eauto.
  - rewrite Hrun, length_firstn, length_skipn. lia.
Qed.

(** *** Where the blocks of the output come from *)

Lemma emitted_length (lines : list string) (i : nat) :
  length (emitted lines i) <= 1.
Proof.
  destruct (nth_error lines i) as [raw|] eqn:Hi.
  - exact (proj2 (loop_body_frame (S (length lines)) lines i raw Document
                    (Nat.lt_succ_diag_r _) Hi)).
  - unfold emitted, loop_body, getitem. rewrite Hi. simpl. lia.
Qed.

Lemma tagged_blocks (f : nat -> list block) (cs : list nat) :
  map snd (flat_map (fun i => map (pair i) (f i)) cs) = concat (map f cs).
Proof.
  induction cs as [|i cs IH]; [reflexivity|]. cbn [flat_map map concat].
  rewrite map_app, IH. f_equal. rewrite map_map. simpl. apply map_id.
Qed.

Lemma tagged_cursors (P : nat -> Prop) (f : nat -> list block) (cs : list nat) :
  Forall P cs ->
  Forall P (map fst (flat_map (fun i => map (pair i) (f i)) cs)).
Proof.
  induction 1 as [|i cs Hi Hcs IH]; [constructor|]. cbn [flat_map].
  rewrite map_app. apply Forall_app. split; [|exact IH].
  rewrite map_map. simpl. apply Forall_forall. intros k Hk.
  apply in_map_iff in Hk as [b [<- _]]. exact Hi.
Qed.

Lemma tagged_sorted (f : nat -> list block) (cs : list nat) :
  (forall i, length (f i) <= 1) ->
  StronglySorted lt cs ->
  StronglySorted lt (map fst (flat_map (fun i => map (pair i) (f i)) cs)).
Proof.
  intros Hf. induction 1 as [|i cs Hs IH Hi]; [constructor|]. cbn [flat_map].
  specialize (Hf i). destruct (f i) as [|b [|b' bs]]; simpl in Hf; [exact IH | | lia].
  cbn [map app fst]. constructor; [exact IH|]. now apply tagged_cursors.
Qed.

End ConvertFacts.

(** ** Facts about whole conversions *)

Module DocumentFacts.
Import Py Docx Convert Notions PyFacts ConvertFacts.

(** An iteration at a line that is not a fence does to the document what
    it does for that line alone, and depends on the line by its trimmed form
    only. *)
Lemma loop_body_on_line (fuel : nat) (lines : list string) (i : nat)
    (raw raw' : string) (doc : document) :
  nth_error lines i = Some raw ->
  strip raw = strip raw' ->
  fence_rule (strip raw) = false ->
  loop_body fuel lines (i, doc) = Ok (i + 1, doc ++ line_blocks raw').
Proof.
  intros Hi Hs Hf.
  assert (Hf' : fence_rule (strip raw') = false) by now rewrite <- Hs.
  destruct (loop_body_line 2 [raw'] 0 raw' Document eq_refl Hf')
    as [blocks [_ Halone]].
  assert (Hb : line_blocks raw' = blocks).
  { unfold line_blocks, emitted. now rewrite Halone. }
  rewrite Hb. specialize (Halone 2 Document). revert Halone.
  unfold loop_body. rewrite (getitem_nth _ _ _ Hi).
  change (getitem [raw'] 0) with (Ok raw'). cbn [bind]. cbv zeta.
  rewrite <- Hs. unfold fence_rule in Hf. rewrite Hf. unfold add, Document.
  destruct (is_empty (strip raw)).
  { intros [= <-]. now rewrite app_nil_r. }
  destruct (startswith (strip raw) "# "); [now intros [= <-]|].
  destruct (startswith (strip raw) "## "); [now intros [= <-]|].
  destruct (startswith (strip raw) "### "); [now intros [= <-]|].
  destruct (startswith (strip raw) "#### "); [now intros [= <-]|].
  destruct (startswith (strip raw) "- " || startswith (strip raw) "* ");
    [now intros [= <-]|].
  destruct (str_getitem (strip raw) 0) as [c|e]; [|discriminate].
  cbn [bind].
  destruct (isdigit c && contains ". " (slice_to 5 (strip raw))).
  - destruct (getitem (split_once ". " (strip raw)) 1) as [t|e]; [|discriminate].
    cbn [bind]. now intros [= <-].
  - now intros [= <-].
Qed.

Lemma emitted_on_line (lines : list string) (i : nat) (raw : string) :
  nth_error lines i = Some raw ->
  fence_rule (strip raw) = false ->
  emitted lines i = line_blocks raw.
Proof.
  intros Hi Hf. unfold emitted.
  now rewrite (loop_body_on_line _ _ _ raw raw Document Hi eq_refl Hf).
Qed.

(** *** A line in front of the input *)

Lemma emitted_cons (x : string) (rest : list string) (j : nat) :
  emitted (x :: rest) (S j) = emitted rest j.
Proof.
  destruct (nth_error rest j) as [r|] eqn:Hj.
  - assert (Hj' : nth_error (x :: rest) (S j) = Some r) by exact Hj.
    destruct (fence_rule (strip r)) eqn:Hf.
    + unfold emitted.
      rewrite (loop_body_fence _ _ _ _ Document (Nat.lt_succ_diag_r _) Hj' Hf).
      rewrite (loop_body_fence _ _ _ _ Document (Nat.lt_succ_diag_r _) Hj Hf).
      reflexivity.
    + now rewrite (emitted_on_line _ _ _ Hj' Hf), (emitted_on_line _ _ _ Hj Hf).
  - unfold emitted, loop_body, getitem. cbn [nth_error]. now rewrite Hj.
Qed.

Lemma next_cons (x : string) (rest : list string) (j : nat) :
  next (x :: rest) (S j) = S (next rest j).
Proof.
  unfold next. cbn [nth_error]. destruct (nth_error rest j); [|reflexivity].
  unfold skipped. destruct (fence_rule (strip s)); [|reflexivity].
  change (code_run (x :: rest) (S j + 1)) with (code_run rest (j + 1)). lia.
Qed.

Lemma cursors_cons (n : nat) (x : string) (rest : list string) (j : nat) :
  cursors n (x :: rest) (S j) = map S (cursors n rest j).
Proof.
  revert j; induction n as [|n IH]; intros j; [reflexivity|].
  cbn [cursors]. change (S j <? length (x :: rest)) with (j <? length rest).
  destruct (j <? length rest); [|reflexivity].
  cbn [map]. now rewrite next_cons, IH.
Qed.

(** The conversion returns the blocks of its iterations. *)
Lemma convert_lines_blocks (lines : list string) :
  convert_lines lines = Ok (concat (map (emitted lines) (visited lines))).
Proof. unfold convert_lines. apply convert_loop_blocks. lia. Qed.

(** A line that is not a fence, in front of any input, contributes its own
    blocks and leaves the conversion of the rest as it is. *)
Lemma convert_cons (raw : string) (rest : list string) :
  fence_rule (strip raw) = false ->
  convert_lines (raw :: rest)
  = (doc <- convert_lines rest ;; Ok (line_blocks raw ++ doc)).
Proof.
  intros Hf. rewrite !convert_lines_blocks. cbn [bind]. do 2 f_equal.
  unfold visited. cbn [length cursors Nat.ltb Nat.leb map concat].
  rewrite (emitted_on_line (raw :: rest) 0 raw eq_refl Hf). f_equal.
  assert (Hnext : next (raw :: rest) 0 = 1).
  { unfold next, skipped. cbn [nth_error]. now rewrite Hf. }
  rewrite Hnext, cursors_cons, map_map. f_equal.
  apply map_ext. intros j. apply emitted_cons.
Qed.

Lemma convert_app (l1 l2 : list string) :
  forallb not_fence l1 = true ->
  convert_lines (l1 ++ l2)
  = (doc <- convert_lines l2 ;; Ok (flat_map line_blocks l1 ++ doc)).
Proof.
  induction l1 as [|raw l1 IH]; intros H.
  - simpl. now destruct (convert_lines l2).
  - cbn [forallb] in H. apply andb_true_iff in H as [Hraw H].
    apply negb_true_iff in Hraw. cbn [app flat_map].
    rewrite (convert_cons raw (l1 ++ l2) Hraw), (IH H).
    destruct (convert_lines l2); [|reflexivity]. cbn [bind].
    now rewrite app_assoc.
Qed.

(** *** Blank lines and surrounding white space *)

Lemma line_blocks_blank (raw : string) :
  is_blank raw = true -> line_blocks raw = [].
Proof.
  unfold is_blank, line_blocks, emitted, loop_body. intros H.
  change (getitem [raw] 0) with (Ok raw). cbn [bind]. cbv zeta. now rewrite H.
Qed.

Lemma rstrip_idem (s : string) : rstrip (rstrip s) = rstrip s.
Proof.
  induction s as [|c s IH]; [reflexivity|]. simpl.
  destruct (isspace c && is_empty (rstrip s)) eqn:E; [reflexivity|].
  simpl. now rewrite IH, E.
Qed.

Lemma lstrip_rstrip_lstrip (s : string) :
  lstrip (rstrip (lstrip s)) = rstrip (lstrip s).
Proof.
  induction s as [|c s IH]; [reflexivity|]. simpl.
  destruct (isspace c) eqn:E; [exact IH|]. simpl. rewrite E. simpl.
  now rewrite E.
Qed.

(** [s.strip().strip() == s.strip()] *)
Lemma strip_idem (s : string) : strip (strip s) = strip s.
Proof. unfold strip. now rewrite lstrip_rstrip_lstrip, rstrip_idem. Qed.

Lemma line_blocks_strip (raw : string) :
  fence_rule (strip raw) = false -> line_blocks (strip raw) = line_blocks raw.
Proof.
  intros Hf. unfold line_blocks at 1. unfold emitted.
  rewrite (loop_body_on_line _ [strip raw] 0 (strip raw) raw Document eq_refl);
    [reflexivity | apply strip_idem | now rewrite strip_idem].
Qed.

Lemma not_fence_strip (raw : string) : not_fence (strip raw) = not_fence raw.
Proof. unfold not_fence. now rewrite strip_idem. Qed.

(** *** A code block in front of the input *)

Lemma take_while_app {A : Type} (f : A -> bool) (body rest : list A) (x : A) :
  forallb f body = true -> f x = false ->
  take_while f (body ++ x :: rest) = body.
Proof.
  intros Hb Hx. induction body as [|a body IH]; simpl in *; [now rewrite Hx|].
  apply andb_true_iff in Hb as [-> Hb]. now rewrite IH.
Qed.

Lemma take_while_whole {A : Type} (f : A -> bool) (body : list A) :
  forallb f body = true -> take_while f body = body.
Proof.
  intros Hb. induction body as [|a body IH]; simpl in *; [reflexivity|].
  apply andb_true_iff in Hb as [-> Hb]. now rewrite IH.
Qed.

Lemma emitted_app (pre rest : list string) (j : nat) :
  emitted (pre ++ rest) (length pre + j) = emitted rest j.
Proof.
  induction pre as [|x pre IH]; [reflexivity|].
  cbn [app length Nat.add]. now rewrite emitted_cons.
Qed.

Lemma cursors_app (n : nat) (pre rest : list string) (j : nat) :
  cursors n (pre ++ rest) (length pre + j)
  = map (Nat.add (length pre)) (cursors n rest j).
Proof.
  induction pre as [|x pre IH].
  - simpl. now rewrite map_id.
  - cbn [app length Nat.add]. rewrite cursors_cons, IH, map_map. reflexivity.
Qed.

Lemma cursors_past (n : nat) (lines : list string) (i : nat) :
  length lines <= i -> cursors n lines i = [].
Proof.
  intros H. destruct n; [reflexivity|]. simpl.
  assert (E : (i <? length lines) = false) by (apply Nat.ltb_ge; lia).
  now rewrite E.
Qed.

(** The blocks of a code block with body [body]. *)
Lemma emitted_fence (opening : string) (tail : list string) :
  fence_rule (strip opening) = true ->
  emitted (opening :: tail) 0
  = match code_run (opening :: tail) 1 with
    | [] => []
    | _ :: _ => [CodeBlock (join (code_run (opening :: tail) 1))]
    end.
Proof.
  intros Hf. unfold emitted.
  rewrite (loop_body_fence _ (opening :: tail) 0 opening Document
             (Nat.lt_succ_diag_r _) eq_refl Hf).
  change (code_run (opening :: tail) (0 + 1)) with (code_run (opening :: tail) 1).
  now destruct (code_run (opening :: tail) 1).
Qed.

Lemma convert_fence (opening : string) (tail : list string) :
  fence_rule (strip opening) = true ->
  convert_lines (opening :: tail)
  = Ok (match code_run tail 0 with
        | [] => []
        | _ :: _ => [CodeBlock (join (code_run tail 0))]
        end
        ++ concat (map (emitted (opening :: tail))
                       (cursors (length tail) (opening :: tail)
                                (1 + length (code_run tail 0))))).
Proof.
  intros Hf. rewrite convert_lines_blocks. f_equal.
  unfold visited. cbn [length cursors Nat.ltb Nat.leb map concat].
  rewrite (emitted_fence _ _ Hf).
  change (code_run (opening :: tail) 1) with (code_run tail 0).
  f_equal. unfold next, skipped. cbn [nth_error]. rewrite Hf.
  change (code_run (opening :: tail) (0 + 1)) with (code_run tail 0).
  reflexivity.
Qed.

(** The blocks of the collected lines [body] of a code block. *)
Lemma convert_unclosed (opening : string) (body : list string) :
  fence_rule (strip opening) = true ->
  forallb not_fence body = true ->
  convert_lines (opening :: body)
  = Ok (match body with
        | [] => []
        | _ :: _ => [CodeBlock (join body)]
        end).
Proof.
  intros Hf Hb. rewrite (convert_fence _ _ Hf).
  unfold code_run. cbn [skipn]. rewrite (take_while_whole _ _ Hb).
  rewrite cursors_past by (simpl; lia). cbn [map concat].
  now rewrite app_nil_r.
Qed.

Lemma convert_closed (opening closing : string) (body rest : list string) :
  fence_rule (strip opening) = true ->
  forallb not_fence body = true ->
  fence_rule (strip closing) = true ->
  convert_lines (opening :: body ++ closing :: rest)
  = (doc <- convert_lines (closing :: rest) ;;
     Ok (match body with
         | [] => []
         | _ :: _ => [CodeBlock (join body)]
         end ++ doc)).
Proof.
  intros Hf Hb Hc. rewrite (convert_fence _ _ Hf).
  assert (Hrun : code_run (body ++ closing :: rest) 0 = body).
  { unfold code_run. cbn [skipn]. apply take_while_app; [exact Hb|].
    unfold not_fence. now apply negb_false_iff. }
  rewrite Hrun, convert_lines_blocks. cbn [bind]. do 2 f_equal.
  change (opening :: body ++ closing :: rest)
    with ((opening :: body) ++ closing :: rest).
  replace (1 + length body) with (length (opening :: body) + 0)
    by (simpl; lia).
  rewrite cursors_app, map_map. unfold visited.
  rewrite (cursors_fuel (closing :: rest) (length (body ++ closing :: rest))
             (length (closing :: rest)) 0)
    by (rewrite ?length_app; simpl; lia).
  f_equal. apply map_ext. intros j. apply emitted_app.
Qed.

(** *** Where a block comes from *)

(** Every block of the output is the one block of the iteration at some
    line of the input. *)
Lemma block_origin (lines : list string) (doc : document) (b : block) :
  convert_lines lines = Ok doc -> In b doc ->
  exists i raw,
    nth_error lines i = Some raw
    /\ loop_body (S (length lines)) lines (i, Document)
       = Ok (i + 1 + skipped lines i raw, [b]).
Proof.
  rewrite convert_lines_blocks. intros [= <-] Hin.
  apply in_concat in Hin as [blocks [Hblocks Hb]].
  apply in_map_iff in Hblocks as [i [<- Hi]].
  pose proof (cursors_from lines (length lines) 0) as Hc.
  rewrite Forall_forall in Hc. apply Hc in Hi.
  destruct (getitem_lt lines i (proj2 Hi)) as [raw [Hraw _]].
  exists i, raw. split; [exact Hraw|].
  destruct (loop_body_frame (S (length lines)) lines i raw Document
              (Nat.lt_succ_diag_r _) Hraw) as [Hbody Hlen].
  rewrite Hbody. do 2 f_equal.
  destruct (emitted lines i) as [|x [|y l]]; simpl in *; [easy | | lia].
  now destruct Hb as [->|[]].
Qed.

(** What the line under the cursor is like, by the kind of the block the
    iteration appends. *)
Lemma block_inv (fuel : nat) (lines : list string) (i i' : nat)
    (raw : string) (doc : document) (b : block) :
  length lines < fuel ->
  nth_error lines i = Some raw ->
  loop_body fuel lines (i, doc) = Ok (i', doc ++ [b]) ->
  match b with
  | Heading N text =>
      1 <= N <= 4 /\ strip raw = (heading_prefix N ++ text)%string
  | CodeBlock text =>
      fence_rule (strip raw) = true /\ text = join (code_run lines (i + 1))
      /\ code_run lines (i + 1) <> []
  | ListBullet text =>
      bullet_rule (strip raw) = true /\ text = slice_from 2 (strip raw)
  | ListNumber text =>
      numbered_rule (strip raw) = true /\
      exists k, find ". " (strip raw) = Some k
                /\ text = slice_from (k + 2) (strip raw)
  | Paragraph runs =>
      is_blank raw = false /\ heading_rule (strip raw) = false
      /\ fence_rule (strip raw) = false /\ bullet_rule (strip raw) = false
      /\ numbered_rule (strip raw) = false
      /\ runs = add_runs (split "`" (strip raw))
  end.
Proof.
  intros Hfuel Hi H.
  destruct (fence_rule (strip raw)) eqn:Hf.
  { rewrite (loop_body_fence fuel _ _ _ doc Hfuel Hi Hf) in H.
    destruct (code_run lines (i + 1)) as [|x l] eqn:Hrun; [wrong_block H|].
    injection H as _ H. apply appended_eq in H as <-. now repeat split. }
  destruct (is_blank raw) eqn:He.
  { rewrite (loop_body_on_line fuel lines i raw raw doc Hi eq_refl Hf) in H.
    rewrite (line_blocks_blank _ He), app_nil_r in H. wrong_block H. }
  destruct (heading_rule (strip raw)) eqn:Hh.
  { assert (HN : exists N, 1 <= N <= 4
                           /\ startswith (strip raw) (heading_prefix N) = true).
    { unfold heading_rule in Hh. repeat (apply orb_true_iff in Hh as [Hh|Hh]);
        [exists 1 | exists 2 | exists 3 | exists 4]; (split; [lia | exact Hh]). }
    destruct HN as [N [HN Hp]].
    rewrite (heading_branch fuel _ _ _ doc N Hi HN Hp) in H.
    injection H as _ H. apply appended_eq in H as <-. split; [exact HN|].
    apply startswith_slice in Hp.
    replace (String.length (heading_prefix N)) with (N + 1) in Hp; [exact Hp|].
    clear. induction N; simpl; lia. }
  destruct (bullet_rule (strip raw)) eqn:Hb.
  { rewrite (bullet_branch fuel _ _ _ doc Hi Hb) in H.
    injection H as _ H. apply appended_eq in H as <-. now split. }
  destruct (numbered_rule (strip raw)) eqn:Hn.
  { destruct (numbered_branch fuel _ _ _ doc Hi Hn) as [k [Hk Hbody]].
    rewrite Hbody in H. injection H as _ H. apply appended_eq in H as <-.
    split; [reflexivity|]. now exists k. }
  rewrite (paragraph_branch fuel _ _ _ doc Hi He Hh Hf Hb Hn) in H.
  injection H as _ H. apply appended_eq in H as <-. now repeat split.
Qed.

(** *** The characters of the texts *)

Lemma has_char_app (c : ascii) (a b : string) :
  has_char c (a ++ b) = has_char c a || has_char c b.
Proof.
  induction a as [|x a IH]; [reflexivity|]. simpl. now rewrite IH, orb_assoc.
Qed.

Lemma has_char_strip (c : ascii) (s : string) :
  has_char c s = false -> has_char c (strip s) = false.
Proof.
  destruct (strip_split s) as [l [r [Hs _]]]. intros H. rewrite Hs in H.
  rewrite !has_char_app in H. apply orb_false_iff in H as [_ H].
  now apply orb_false_iff in H as [H _].
Qed.

Lemma has_char_slice_from (c : ascii) (k : nat) (s : string) :
  has_char c s = false -> has_char c (slice_from k s) = false.
Proof.
  intros H. rewrite <- (slice_to_from k s), has_char_app in H.
  now apply orb_false_iff in H as [_ H].
Qed.

Lemma has_char_split (c sep : ascii) (s : string) :
  has_char c s = false ->
  Forall (fun piece => has_char c piece = false) (split sep s).
Proof.
  induction s as [|a s IH]; simpl; intros H; [repeat constructor|].
  apply orb_false_iff in H as [Ha H]. specialize (IH H).
  destruct (Ascii.eqb a sep); [now constructor|].
  destruct (split sep s) as [|h t]; [repeat constructor; simpl; now rewrite Ha|].
  inversion IH as [|? ? Hh Ht]; subst. constructor; [|exact Ht].
  simpl. now rewrite Ha.
Qed.

Lemma has_char_join (c : ascii) (l : list string) :
  Forall (fun piece => has_char c piece = false) l ->
  has_char c (join l) = false.
Proof.
  induction 1 as [|x l Hx Hl IH]; [reflexivity|].
  now rewrite join_cons, has_char_app, Hx, IH.
Qed.

Lemma take_while_incl {A : Type} (P : A -> Prop) (f : A -> bool) (l : list A) :
  Forall P l -> Forall P (take_while f l).
Proof.
  induction 1 as [|a l Ha Hl IH]; simpl; [constructor|].
  destruct (f a); now constructor.
Qed.

Lemma skipn_incl {A : Type} (P : A -> Prop) (n : nat) (l : list A) :
  Forall P l -> Forall P (skipn n l).
Proof.
  intros H. rewrite <- (firstn_skipn n l) in H.
  now apply Forall_app in H as [_ H].
Qed.

(** *** The input cut at its first fence line *)

Lemma first_fence (lines : list string) :
  forallb not_fence lines = true
  \/ exists body closing rest,
       lines = body ++ closing :: rest
       /\ forallb not_fence body = true
       /\ fence_rule (strip closing) = true.
Proof.
  induction lines as [|x lines IH]; [now left|].
  destruct (not_fence x) eqn:Hx.
  - destruct IH as [IH|[body [closing [rest [-> [Hb Hc]]]]]].
    + left. simpl. now rewrite Hx.
    + right. exists (x :: body), closing, rest. simpl. now rewrite Hx.
  - right. exists [], x, lines. repeat split.
    unfold not_fence in Hx. now apply negb_false_iff in Hx.
Qed.

(** The three ways an input begins (a line that is no fence, a fence that a
    later fence closes, a fence that nothing closes) give an induction on
    inputs that follows the conversion. *)
Lemma convert_ind (P : list string -> Prop) :
  P [] ->
  (forall raw rest,
     fence_rule (strip raw) = false -> P rest -> P (raw :: rest)) ->
  (forall opening body closing rest,
     fence_rule (strip opening) = true -> forallb not_fence body = true ->
     fence_rule (strip closing) = true ->
     P (closing :: rest) -> P (opening :: body ++ closing :: rest)) ->
  (forall opening body,
     fence_rule (strip opening) = true -> forallb not_fence body = true ->
     P (opening :: body)) ->
  forall lines, P lines.
Proof.
  intros Hnil Hline Hclosed Hunclosed lines.
  remember (length lines) as n eqn:Hn. revert lines Hn.
  induction n as [n IH] using lt_wf_ind. intros [|x tail] Hn; [exact Hnil|].
  destruct (fence_rule (strip x)) eqn:Hx.
  - destruct (first_fence tail) as [Hb|[body [closing [rest [-> [Hb Hc]]]]]].
    + now apply Hunclosed.
    + apply Hclosed; auto. apply (IH (length (closing :: rest))); [|reflexivity].
      subst n. simpl. rewrite length_app. simpl. lia.
  - apply Hline; [exact Hx|]. apply (IH (length tail)); [|reflexivity].
    subst n. simpl. lia.
Qed.

(** *** Helpers for whole inputs *)

Lemma convert_single (raw : string) :
  convert_lines [raw] = Ok (line_blocks raw).
Proof.
  rewrite convert_lines_blocks. unfold visited, line_blocks.
  cbn [length cursors Nat.ltb Nat.leb map concat]. now rewrite app_nil_r.
Qed.

Lemma code_block_length (body : list string) :
  length (match body with
          | [] => []
          | _ :: _ => [CodeBlock (join body)]
          end) <= 1.
Proof. destruct body; simpl; lia. Qed.

Lemma fence_not_blank (raw : string) :
  fence_rule (strip raw) = true -> is_blank raw = false.
Proof. intros H. exact (startswith_nonempty _ _ _ H). Qed.

(** No text of the output has a character that no line of the input has. *)
Lemma texts_without (c : ascii) (lines : list string) (doc : document) :
  Forall (fun raw => has_char c raw = false) lines ->
  convert_lines lines = Ok doc ->
  Forall (fun b => Forall (fun t => has_char c t = false) (block_texts b)) doc.
Proof.
  intros Hlines Hdoc. apply Forall_forall. intros b Hb.
  destruct (block_origin lines doc b Hdoc Hb) as [i [raw [Hi Hbody]]].
  assert (Hraw : has_char c (strip raw) = false).
  { apply has_char_strip. rewrite Forall_forall in Hlines.
    apply Hlines. eapply nth_error_In, Hi. }
  pose proof (block_inv _ lines i _ raw Document b (Nat.lt_succ_diag_r _) Hi Hbody)
    as Hinv.
  destruct b as [N text|text|text|text|runs]; cbn [block_texts].
  - destruct Hinv as [_ Hl]. rewrite Hl, has_char_app in Hraw.
    apply orb_false_iff in Hraw as [_ Hraw]. now repeat constructor.
  - destruct Hinv as [_ [-> _]]. repeat constructor.
    apply has_char_join. unfold code_run. now apply take_while_incl, skipn_incl.
  - destruct Hinv as [_ ->]. repeat constructor. now apply has_char_slice_from.
  - destruct Hinv as [_ [k [_ ->]]]. repeat constructor.
    now apply has_char_slice_from.
  - destruct Hinv as [_ [_ [_ [_ [_ ->]]]]]. rewrite add_runs_text.
    now apply has_char_split.
Qed.

End DocumentFacts.

Import Py Docx Convert Script Notions PyFacts ConvertFacts DocumentFacts.

(** * The properties of the specification *)

(** C1 (the script departs from the specification).  On the four lines
    [```], [a], [```], [# H] the iteration at the opening fence stops with
    the cursor on the closing fence, line 2, not after it; the next iteration
    classifies that line as the start of a code block and collects [# H] as
    its body, so the conversion yields two code blocks and no heading. *)
Theorem closing_fence_reopens_code_block :
  let lines := ["```"; "a"; "```"; "# H"] in
  loop_body 5 lines (0, Document) = Ok (2, [CodeBlock "a"])
  /\ loop_body 5 lines (2, [CodeBlock "a"])
     = Ok (4, [CodeBlock "a"; CodeBlock "# H"])
  /\ convert_lines lines = Ok [CodeBlock "a"; CodeBlock "# H"].
Proof. cbv zeta. repeat split; vm_compute; reflexivity. Qed.

(** C2.  The iteration at a line appends a heading of level [N] with text
    [text] exactly when [N] is between 1 and 4 and the trimmed line is [N]
    '#' characters, a space, and then [text]; a line that begins with
    '#### ' gives no heading of another level than 4. *)
Theorem heading_iff_prefix (fuel : nat) (lines : list string) (i : nat)
    (raw : string) (doc : document)
    (Hi : nth_error lines i = Some raw) :
  (forall N text,
     (exists i', loop_body fuel lines (i, doc) = Ok (i', doc ++ [Heading N text]))
     <-> 1 <= N <= 4 /\ strip raw = (heading_prefix N ++ text)%string)
  /\ (startswith (strip raw) "#### " = true ->
      forall N text i',
        loop_body fuel lines (i, doc) = Ok (i', doc ++ [Heading N text]) ->
        N = 4).
Proof.
  assert (Hiff : forall N text,
     (exists i', loop_body fuel lines (i, doc) = Ok (i', doc ++ [Heading N text]))
     <-> 1 <= N <= 4 /\ strip raw = (heading_prefix N ++ text)%string).
  { intros N text. split.
    - intros [i' H]. destruct (heading_inv _ _ _ _ _ _ _ _ Hi H) as [HN [Hp ->]].
      split; [exact HN|]. apply startswith_slice in Hp.
      replace (String.length (heading_prefix N)) with (N + 1) in Hp; [exact Hp|].
      clear. induction N; simpl; lia.
    - intros [HN Hl]. exists (i + 1).
      assert (Hp : startswith (strip raw) (heading_prefix N) = true)
        by (apply startswith_iff; now exists text).
      rewrite (heading_branch fuel _ _ _ doc N Hi HN Hp). do 3 f_equal.
      rewrite Hl. replace (N + 1) with (String.length (heading_prefix N)).
      + now rewrite slice_from_app.
      + clear. induction N; simpl; lia. }
  split; [exact Hiff|].
  intros H4 N text i' H.
  destruct (proj1 (Hiff N text) (ex_intro _ i' H)) as [HN Hl].
  rewrite Hl in H4.
  assert (N = 1 \/ N = 2 \/ N = 3 \/ N = 4) as [-> | [-> | [-> | ->]]] by lia;
    try reflexivity; exfalso; revert H4;
    cbn [heading_prefix String.append];
    repeat (rewrite startswith_cons; cbn [Ascii.eqb Bool.eqb andb]);
    discriminate.
Qed.

Lemma heading_iff_prefix_witness :
  nth_error ["## Scope"] 0 = Some "## Scope"
  /\ (exists i', loop_body 2 ["## Scope"] (0, Document)
                 = Ok (i', Document ++ [Heading 2 "Scope"])).
Proof.
  split; [reflexivity|].
  apply (proj1 (heading_iff_prefix 2 ["## Scope"] 0 "## Scope" Document eq_refl)).
  split; [lia | reflexivity].
Defined.

(** C3.  A trimmed line that is not empty and that no heading, code-fence,
    bullet or numbered-list test selects gives exactly one paragraph block,
    and the iteration does not raise.  The texts of its runs are the pieces
    of the line cut at its backticks, in order: put back together with
    backticks they are the line, none contains a backtick, and concatenated
    they are the line without its backticks; the runs of even index are in
    the default font and those of odd index in the fixed-width font. *)
Theorem paragraph_runs (fuel : nat) (lines : list string) (i : nat)
    (raw : string) (doc : document)
    (Hi : nth_error lines i = Some raw)
    (Hnonempty : is_empty (strip raw) = false)
    (Hheading : heading_rule (strip raw) = false)
    (Hfence : fence_rule (strip raw) = false)
    (Hbullet : bullet_rule (strip raw) = false)
    (Hnumbered : numbered_rule (strip raw) = false) :
  exists runs,
    loop_body fuel lines (i, doc) = Ok (i + 1, doc ++ [Paragraph runs])
    /\ map run_text runs = split "`" (strip raw)
    /\ String.concat "`" (map run_text runs) = strip raw
    /\ Forall (fun t => has_char "`" t = false) (map run_text runs)
    /\ (forall j r, nth_error runs j = Some r ->
          run_font r = if j mod 2 =? 0 then DefaultFont else CourierNew)
    /\ runs_text runs = remove "`" (strip raw).
Proof.
  exists (add_runs (split "`" (strip raw))).
  split; [now apply paragraph_branch|].
  unfold runs_text. rewrite add_runs_text.
  repeat split.
  - apply concat_split.
  - apply split_no_sep.
  - apply add_runs_font.
  - apply join_split.
Qed.

Lemma paragraph_runs_witness :
  exists runs,
    loop_body 2 ["  text `code "] (0, Document)
    = Ok (0 + 1, Document ++ [Paragraph runs])
    /\ map run_text runs = split "`" (strip "  text `code ")
    /\ String.concat "`" (map run_text runs) = strip "  text `code "
    /\ Forall (fun t => has_char "`" t = false) (map run_text runs)
    /\ (forall j r, nth_error runs j = Some r ->
          run_font r = if j mod 2 =? 0 then DefaultFont else CourierNew)
    /\ runs_text runs = remove "`" (strip "  text `code ").
Proof.
  apply (paragraph_runs 2 ["  text `code "] 0 "  text `code " Document);
    reflexivity.
Defined.

(** C4.  The iteration at a fence line collects the raw lines that follow it
    up to the next fence line or the end of the input; when it collected none
    it appends no block, and otherwise it appends one code block whose text
    is the concatenation of the collected lines as they are, with nothing
    between them.  The two lines [a] and [b] between fences give the one
    block [ab], and two adjacent fences give no block. *)
Theorem code_block_text (fuel : nat) (lines : list string) (i : nat)
    (opening : string) (doc : document)
    (Hfuel : length lines < fuel)
    (Hopen : nth_error lines i = Some opening)
    (Hfence : fence_rule (strip opening) = true) :
  let body := code_run lines (i + 1) in
  loop_body fuel lines (i, doc)
  = Ok (i + 1 + length body,
        match body with
        | [] => doc
        | _ :: _ => doc ++ [CodeBlock (fold_right String.append EmptyString body)]
        end)
  /\ body = firstn (length body) (skipn (i + 1) lines)
  /\ Forall (fun l => fence_rule (strip l) = false) body
  /\ (forall l, nth_error lines (i + 1 + length body) = Some l ->
                fence_rule (strip l) = true)
  /\ convert_lines ["```"; "a"; "b"; "```"] = Ok [CodeBlock "ab"]
  /\ convert_lines ["```"; "```"] = Ok [].
Proof.
  cbv zeta. split; [|split; [|split; [|split; [|split]]]].
  - rewrite (loop_body_fence fuel _ _ _ doc Hfuel Hopen Hfence).
    now rewrite join_fold.
  - apply take_while_firstn.
  - eapply Forall_impl; [|apply take_while_all].
    intros l Hl. now apply negb_true_iff in Hl.
  - intros l Hl. apply code_run_stops in Hl. now apply negb_false_iff in Hl.
  - reflexivity.
  - reflexivity.
Qed.

Lemma code_block_text_witness :
  loop_body 5 ["```"; "a"; "b"; "```"] (0, Document)
  = Ok (3, [CodeBlock "ab"]).
Proof.
  exact (proj1 (code_block_text 5 ["```"; "a"; "b"; "```"] 0 "```" Document
                  ltac:(simpl; lia) eq_refl eq_refl)).
Defined.

(** C5.  A trimmed line that begins with '- ' or '* ' gives one bulleted
    block with the text after these two characters.  A trimmed line whose
    first character is a digit and whose first five characters contain '. '
    gives one numbered block with the text after the first '. ' of the
    line.  So [- item] gives the bulleted block [item], and [1. item] and
    [10. item] each give the numbered block [item]. *)
Theorem list_item_blocks (fuel : nat) (lines : list string) (i : nat)
    (raw : string) (doc : document)
    (Hi : nth_error lines i = Some raw) :
  (bullet_rule (strip raw) = true ->
   loop_body fuel lines (i, doc)
   = Ok (i + 1, doc ++ [ListBullet (slice_from 2 (strip raw))]))
  /\ (numbered_rule (strip raw) = true ->
      exists k,
        startswith (slice_from k (strip raw)) ". " = true
        /\ (forall j, j < k -> startswith (slice_from j (strip raw)) ". " = false)
        /\ loop_body fuel lines (i, doc)
           = Ok (i + 1, doc ++ [ListNumber (slice_from (k + 2) (strip raw))]))
  /\ convert_lines ["- item"] = Ok [ListBullet "item"]
  /\ convert_lines ["1. item"] = Ok [ListNumber "item"]
  /\ convert_lines ["10. item"] = Ok [ListNumber "item"].
Proof.
  split; [|split; [|repeat split; reflexivity]].
  - now apply bullet_branch.
  - intros Hn.
    destruct (numbered_branch fuel lines i raw doc Hi Hn) as [k [Hk Hb]].
    exists k. destruct (find_first _ _ _ Hk) as [H1 H2]. auto.
Qed.

Lemma list_item_blocks_witness :
  loop_body 2 ["* item"] (0, Document) = Ok (1, [ListBullet "item"])
  /\ exists k,
       startswith (slice_from k "10. item") ". " = true
       /\ (forall j, j < k -> startswith (slice_from j "10. item") ". " = false)
       /\ loop_body 2 ["10. item"] (0, Document)
          = Ok (1, [ListNumber (slice_from (k + 2) "10. item")]).
Proof.
  split.
  - exact (proj1 (list_item_blocks 2 ["* item"] 0 "* item" Document eq_refl)
             eq_refl).
  - exact (proj1 (proj2 (list_item_blocks 2 ["10. item"] 0 "10. item" Document
                           eq_refl)) eq_refl).
Defined.

(** C6, as the script behaves.  The line [3.14 is pi] has no '. ' in its
    first five characters: the numbered-list test rejects it and it becomes
    a paragraph. *)
Lemma pi_sentence_is_a_paragraph :
  contains ". " (slice_to 5 "3.14 is pi") = false
  /\ numbered_rule "3.14 is pi" = false
  /\ convert_lines ["3.14 is pi"]
     = Ok [Paragraph [mkRun "3.14 is pi" DefaultFont]].
Proof. repeat split; reflexivity. Qed.

(** C6, amended.  The numbered-list test selects every line whose first
    character is a digit and whose first five characters contain a period
    followed by a space, sentences included: [365. That is a year] becomes
    the numbered item [That is a year].  The line [3.14 is pi], where no
    space follows the period, becomes a paragraph. *)
Theorem numbered_rule_takes_sentences (fuel : nat) (lines : list string)
    (i : nat) (raw : string) (doc : document) (c : ascii) (rest : string)
    (Hi : nth_error lines i = Some raw)
    (Hline : strip raw = String c rest)
    (Hdigit : isdigit c = true)
    (Hdot : contains ". " (slice_to 5 (strip raw)) = true) :
  (exists text,
     loop_body fuel lines (i, doc) = Ok (i + 1, doc ++ [ListNumber text]))
  /\ convert_lines ["365. That is a year"] = Ok [ListNumber "That is a year"]
  /\ convert_lines ["3.14 is pi"]
     = Ok [Paragraph [mkRun "3.14 is pi" DefaultFont]].
Proof.
  split; [|split; reflexivity].
  assert (Hn : numbered_rule (strip raw) = true).
  { revert Hdot. rewrite Hline. cbn [numbered_rule]. intros ->. now rewrite Hdigit. }
  destruct (numbered_branch fuel lines i raw doc Hi Hn) as [k [_ Hb]].
  eauto.
Qed.

Lemma numbered_rule_takes_sentences_witness :
  exists text,
    loop_body 2 ["365. That is a year"] (0, Document)
    = Ok (0 + 1, Document ++ [ListNumber text]).
Proof.
  exact (proj1 (numbered_rule_takes_sentences 2 ["365. That is a year"] 0
                  "365. That is a year" Document "3" "65. That is a year"
                  eq_refl eq_refl eq_refl eq_refl)).
Defined.

(** C8.  The output is the blocks of the iterations in the order of their
    cursors: tagged with the cursor of the line (or of the opening fence)
    that produced them, the blocks of the output have strictly increasing
    tags, so a block from an earlier line comes before a block from a later
    line; and an iteration only appends to the document it is given. *)
Theorem blocks_follow_line_order (lines : list string) :
  convert_lines lines = Ok (map snd (origins lines))
  /\ StronglySorted lt (map fst (origins lines))
  /\ (forall i b, In (i, b) (origins lines) ->
        i < length lines /\
        exists i', loop_body (S (length lines)) lines (i, Document) = Ok (i', [b]))
  /\ (forall p q i j A B,
        nth_error (origins lines) p = Some (i, A) ->
        nth_error (origins lines) q = Some (j, B) ->
        i < j -> p < q)
  /\ (forall fuel i raw doc,
        length lines < fuel -> nth_error lines i = Some raw ->
        exists i' blocks,
          loop_body fuel lines (i, doc) = Ok (i', doc ++ blocks)
          /\ loop_body fuel lines (i, Document) = Ok (i', blocks)).
Proof.
  assert (Hsorted : StronglySorted lt (map fst (origins lines))).
  { apply tagged_sorted; [apply emitted_length | apply cursors_sorted]. }
  split; [|split; [exact Hsorted | split; [|split]]].
  - unfold convert_lines, origins.
    rewrite convert_loop_blocks by lia. now rewrite tagged_blocks.
  - intros i b Hin. unfold origins in Hin.
    apply in_flat_map in Hin as [k [Hk Hb]].
    apply in_map_iff in Hb as [b' [[= -> ->] Hb]].
    pose proof (cursors_from lines (length lines) 0) as Hc.
    rewrite Forall_forall in Hc. apply Hc in Hk. split; [lia|].
    pose proof (emitted_length lines i) as Hlen. unfold emitted in *.
    destruct (loop_body (S (length lines)) lines (i, Document))
      as [[i' blocks]|e]; [|destruct Hb].
    exists i'. destruct blocks as [|x [|y blocks]]; simpl in Hlen, Hb; [easy | | lia].
    now destruct Hb as [->|[]].
  - intros p q i j A B Hp Hq Hij.
    destruct (Nat.lt_ge_cases p q) as [|Hge]; [assumption|exfalso].
    apply (map_nth_error fst) in Hp, Hq. simpl in Hp, Hq.
    revert p q Hp Hq Hge. induction Hsorted as [|a l Hs IH Ha]; intros p q Hp Hq Hge.
    + destruct p; discriminate.
    + destruct q as [|q]; destruct p as [|p]; simpl in Hp, Hq.
      * injection Hp as ->. injection Hq as ->. lia.
      * injection Hq as ->. apply nth_error_In in Hp.
        rewrite Forall_forall in Ha. apply Ha in Hp. lia.
      * lia.
      * apply (IH p q); auto. lia.
  - intros fuel i raw doc Hfuel Hi.
    destruct (loop_body_frame fuel lines i raw doc Hfuel Hi) as [H1 _].
    destruct (loop_body_frame fuel lines i raw Document Hfuel Hi) as [H2 _].
    eauto.
Qed.

(** C9.  Every iteration of the main loop moves the cursor forward: by one
    on an ordinary line, and on a fence line by one plus the number of lines
    the code-block loop collects, which itself moves the cursor by one a
    line.  The cursor never passes the end of the input, the cursors of the
    iterations increase strictly, and the conversion returns a document for
    every number of loop tests above the number of lines. *)
Theorem cursor_advances_and_loop_terminates (fuel : nat) (lines : list string)
    (Hfuel : length lines < fuel) :
  (forall i raw doc,
     nth_error lines i = Some raw ->
     let consumed :=
       if fence_rule (strip raw) then length (code_run lines (i + 1)) else 0 in
     i + 1 + consumed <= length lines /\
     exists doc', loop_body fuel lines (i, doc) = Ok (i + 1 + consumed, doc'))
  /\ (forall j l code_lines,
        nth_error lines j = Some l ->
        collect_body lines (j, code_lines) = Ok (j + 1, code_lines ++ [l]))
  /\ StronglySorted lt (visited lines)
  /\ (exists doc, convert_loop fuel lines = Ok doc /\ convert_lines lines = Ok doc).
Proof.
  split; [|split; [|split]].
  - intros i raw doc Hi. cbv zeta. split; [exact (skipped_bound lines i raw Hi)|].
    destruct (loop_body_frame fuel lines i raw doc Hfuel Hi) as [H _]. eauto.
  - intros j l code_lines Hj. unfold collect_body.
    now rewrite (getitem_nth _ _ _ Hj).
  - apply cursors_sorted.
  - eexists. split; [now apply convert_loop_blocks|].
    unfold convert_lines. apply convert_loop_blocks. lia.
Qed.

Lemma cursor_advances_and_loop_terminates_witness :
  exists doc,
    convert_loop 5 ["# Title"; "```"; "x = 1"; "```"] = Ok doc
    /\ convert_lines ["# Title"; "```"; "x = 1"; "```"] = Ok doc.
Proof.
  exact (proj2 (proj2 (proj2
    (cursor_advances_and_loop_terminates 5
       ["# Title"; "```"; "x = 1"; "```"] ltac:(simpl; lia))))).
Defined.

(** C10.  The partial operations of the classifier are guarded.  A trimmed
    line that the empty-line rule lets through has a first character; when
    '. ' occurs in the first five characters of a line, the split at '. '
    has two pieces and the second one is there; an iteration at a cursor
    inside the input never raises, and neither does the conversion. *)
Theorem classifier_never_raises :
  (forall line, is_empty line = false -> exists c, str_getitem line 0 = Ok c)
  /\ (forall line,
        contains ". " (slice_to 5 line) = true ->
        exists before text,
          split_once ". " line = [before; text]
          /\ getitem (split_once ". " line) 1 = Ok text)
  /\ (forall fuel lines i raw doc,
        length lines < fuel -> nth_error lines i = Some raw ->
        exists st, loop_body fuel lines (i, doc) = Ok st)
  /\ (forall lines, exists doc, convert_lines lines = Ok doc).
Proof.
  split; [|split; [|split]].
  - intros [|c r] H; [discriminate H|]. now exists c.
  - intros line H. apply contains_slice_to in H.
    destruct (split_once_found _ _ H) as [k [_ Hs]]. rewrite Hs. now eauto.
  - intros fuel lines i raw doc Hfuel Hi.
    destruct (loop_body_frame fuel lines i raw doc Hfuel Hi) as [H _]. eauto.
  - intros lines. eexists. unfold convert_lines. apply convert_loop_blocks. lia.
Qed.

Lemma classifier_never_raises_witness :
  (exists c, str_getitem "7 days" 0 = Ok c)
  /\ (exists before text,
        split_once ". " "12. twelve" = [before; text]
        /\ getitem (split_once ". " "12. twelve") 1 = Ok text)
  /\ (exists st, loop_body 2 ["12. twelve"] (0, Document) = Ok st).
Proof.
  split; [|split].
  - exact (proj1 classifier_never_raises "7 days" eq_refl).
  - exact (proj1 (proj2 classifier_never_raises) "12. twelve" eq_refl).
  - exact (proj1 (proj2 (proj2 classifier_never_raises)) 2 ["12. twelve"] 0
             "12. twelve" Document ltac:(simpl; lia) eq_refl).
Defined.


(** C7.  When the input file does not exist, the script prints the error
    message and exits with status 1: no file is written and nothing else is
    printed.  When the packages do not import, it prints its two lines and
    exits with status 1 before anything else, whatever the files are. *)
Theorem missing_input_or_packages_exit (w : world) :
  (fs w md_file = None ->
   script true w
   = (print "Error: BONZAI_COMPREHENSIVE_SUMMARY.md not found" w, Exit 1))
  /\ script false w
     = (print "Please install: pip install python-docx markdown"
              (print "Error: Required packages not installed." w),
        Exit 1)
  /\ (forall installed,
        installed = false \/ fs w md_file = None ->
        let (w', s) := script installed w in
        exit_status s = 1
        /\ fs w' = fs w
        /\ exists diagnostic, stdout w' = stdout w ++ diagnostic
                              /\ diagnostic <> []).
Proof.
  assert (Hmissing : fs w md_file = None ->
    script true w
    = (print "Error: BONZAI_COMPREHENSIVE_SUMMARY.md not found" w, Exit 1)).
  { intros H. unfold script, main, path_exists. now rewrite H. }
  split; [exact Hmissing | split; [reflexivity|]].
  intros [|] [H|H]; try discriminate H.
  - rewrite (Hmissing H). repeat split. now exists ["Error: BONZAI_COMPREHENSIVE_SUMMARY.md not found"].
  - cbn [script]. repeat split. cbn [print stdout]. rewrite <- app_assoc.
    eexists. split; [reflexivity | discriminate].
  - cbn [script]. repeat split. cbn [print stdout]. rewrite <- app_assoc.
    eexists. split; [reflexivity | discriminate].
Qed.

Lemma missing_input_or_packages_exit_witness :
  script true (mkWorld (fun _ => None) [])
  = (print "Error: BONZAI_COMPREHENSIVE_SUMMARY.md not found"
           (mkWorld (fun _ => None) []), Exit 1).
Proof.
  exact (proj1 (missing_input_or_packages_exit (mkWorld (fun _ => None) []))
           eq_refl).
Defined.

(** * Further properties of the conversion *)

(** X1.  Lines that come before the first fence are converted one by one:
    the blocks of the input are the blocks of each of these lines on its
    own, in order, followed by the blocks of the rest. *)
Theorem prefix_converts_line_by_line (l1 l2 : list string)
    (Hfree : forallb not_fence l1 = true) :
  convert_lines (l1 ++ l2)
  = (doc <- convert_lines l2 ;; Ok (flat_map line_blocks l1 ++ doc))
  /\ convert_lines l1 = Ok (flat_map line_blocks l1)
  /\ (forall raw, convert_lines [raw] = Ok (line_blocks raw)).
Proof.
  split; [now apply convert_app | split; [|exact convert_single]].
  rewrite <- (app_nil_r l1) at 1. rewrite (convert_app l1 [] Hfree).
  change (convert_lines []) with (@Ok document []). cbn [bind].
  now rewrite app_nil_r.
Qed.

Lemma prefix_converts_line_by_line_witness :
  convert_lines (["# Title"; "  "; "- one"] ++ ["```"; "x = 1"])
  = (doc <- convert_lines ["```"; "x = 1"] ;;
     Ok (flat_map line_blocks ["# Title"; "  "; "- one"] ++ doc)).
Proof.
  exact (proj1 (prefix_converts_line_by_line ["# Title"; "  "; "- one"]
                  ["```"; "x = 1"] eq_refl)).
Defined.

(** X2.  A fence, the lines up to the next fence, and that fence: the
    conversion gives the code block of these lines, if there are any, and
    then converts the input from the closing fence on, the closing fence
    included.  So when no fence follows, the lines after the closing fence
    come out as a second code block. *)
Theorem closed_code_block_composes (opening closing : string)
    (body rest : list string)
    (Hopen : fence_rule (strip opening) = true)
    (Hbody : forallb not_fence body = true)
    (Hclose : fence_rule (strip closing) = true) :
  convert_lines (opening :: body ++ closing :: rest)
  = (doc <- convert_lines (closing :: rest) ;;
     Ok (match body with
         | [] => []
         | _ :: _ => [CodeBlock (join body)]
         end ++ doc))
  /\ (forallb not_fence rest = true ->
      convert_lines (opening :: body ++ closing :: rest)
      = Ok (match body with
            | [] => []
            | _ :: _ => [CodeBlock (join body)]
            end
            ++ match rest with
               | [] => []
               | _ :: _ => [CodeBlock (join rest)]
               end)).
Proof.
  split; [now apply convert_closed|]. intros Hrest.
  rewrite (convert_closed _ _ _ _ Hopen Hbody Hclose).
  now rewrite (convert_unclosed _ _ Hclose Hrest).
Qed.

Lemma closed_code_block_composes_witness :
  convert_lines ("```python" :: ["x = 1"; "y = 2"] ++ "```" :: ["## Next"])
  = Ok ([CodeBlock (join ["x = 1"; "y = 2"])] ++ [CodeBlock (join ["## Next"])]).
Proof.
  exact (proj2 (closed_code_block_composes "```python" "```" ["x = 1"; "y = 2"]
                  ["## Next"] eq_refl eq_refl eq_refl) eq_refl).
Defined.



(** X4.  Before the first fence, blank lines change nothing: the input
    without them converts to the same document. *)
Theorem blank_lines_are_skipped (l1 l2 : list string)
    (Hfree : forallb not_fence l1 = true) :
  convert_lines (filter (fun raw => negb (is_blank raw)) l1 ++ l2)
  = convert_lines (l1 ++ l2).
Proof.
  assert (Hfilter : forallb not_fence (filter (fun raw => negb (is_blank raw)) l1)
                    = true).
  { apply forallb_forall. intros raw Hraw. apply filter_In in Hraw as [Hraw _].
    rewrite forallb_forall in Hfree. now apply Hfree. }
  rewrite (convert_app _ _ Hfilter), (convert_app _ _ Hfree).
  destruct (convert_lines l2); [|reflexivity]. cbn [bind]. do 2 f_equal.
  clear. induction l1 as [|raw l1 IH]; [reflexivity|]. cbn [filter flat_map].
  destruct (is_blank raw) eqn:E; cbn [negb flat_map].
  - now rewrite (line_blocks_blank _ E), IH.
  - now rewrite IH.
Qed.

Lemma blank_lines_are_skipped_witness :
  convert_lines
    (filter (fun raw => negb (is_blank raw)) ["# A"; EmptyString; "  "; "b"]
     ++ ["```"; EmptyString])
  = convert_lines (["# A"; EmptyString; "  "; "b"] ++ ["```"; EmptyString]).
Proof.
  exact (blank_lines_are_skipped ["# A"; EmptyString; "  "; "b"]
           ["```"; EmptyString] eq_refl).
Defined.

(** X5.  Before the first fence, the white space around a line changes
    nothing: the input with these lines trimmed converts to the same
    document. *)
Theorem surrounding_space_is_ignored (l1 l2 : list string)
    (Hfree : forallb not_fence l1 = true) :
  convert_lines (map strip l1 ++ l2) = convert_lines (l1 ++ l2).
Proof.
  assert (Hmap : forallb not_fence (map strip l1) = true).
  { apply forallb_forall. intros raw Hraw. apply in_map_iff in Hraw as [r [<- Hr]].
    rewrite not_fence_strip. rewrite forallb_forall in Hfree. now apply Hfree. }
  rewrite (convert_app _ _ Hmap), (convert_app _ _ Hfree).
  destruct (convert_lines l2); [|reflexivity]. cbn [bind]. do 2 f_equal.
  clear Hmap. induction l1 as [|raw l1 IH]; [reflexivity|].
  cbn [forallb] in Hfree. apply andb_true_iff in Hfree as [Hraw Hfree].
  cbn [map flat_map]. rewrite (IH Hfree). f_equal.
  apply line_blocks_strip. now apply negb_true_iff in Hraw.
Qed.

Lemma surrounding_space_is_ignored_witness :
  convert_lines (map strip ["   - item  "; "  12. twelve"] ++ ["```"])
  = convert_lines (["   - item  "; "  12. twelve"] ++ ["```"]).
Proof.
  exact (surrounding_space_is_ignored ["   - item  "; "  12. twelve"] ["```"]
           eq_refl).
Defined.

(** X6.  Every block of the output comes from a line of the input that
    justifies it: a heading of level [N] from a line that is [N] '#', a space
    and the text; a code block from a fence line, with the lines collected
    after it as text; a bulleted or numbered item from a line its test
    selects; a paragraph from a line that is not blank and that no other
    test selects. *)
Theorem blocks_come_from_lines (lines : list string) (doc : document)
    (b : block)
    (Hdoc : convert_lines lines = Ok doc)
    (Hb : In b doc) :
  exists i raw,
    nth_error lines i = Some raw /\
    match b with
    | Heading N text =>
        1 <= N <= 4 /\ strip raw = (heading_prefix N ++ text)%string
    | CodeBlock text =>
        fence_rule (strip raw) = true /\ text = join (code_run lines (i + 1))
        /\ code_run lines (i + 1) <> []
    | ListBullet text =>
        bullet_rule (strip raw) = true /\ text = slice_from 2 (strip raw)
    | ListNumber text =>
        numbered_rule (strip raw) = true /\
        exists k, find ". " (strip raw) = Some k
                  /\ text = slice_from (k + 2) (strip raw)
    | Paragraph runs =>
        is_blank raw = false /\ heading_rule (strip raw) = false
        /\ fence_rule (strip raw) = false /\ bullet_rule (strip raw) = false
        /\ numbered_rule (strip raw) = false
        /\ runs = add_runs (split "`" (strip raw))
    end.
Proof.
  destruct (block_origin lines doc b Hdoc Hb) as [i [raw [Hi Hbody]]].
  exists i, raw. split; [exact Hi|].
  exact (block_inv _ lines i _ raw Document b (Nat.lt_succ_diag_r _) Hi Hbody).
Qed.

Lemma blocks_come_from_lines_witness :
  exists i raw,
    nth_error ["intro"; "### Usage"] i = Some raw
    /\ 1 <= 3 <= 4 /\ strip raw = (heading_prefix 3 ++ "Usage")%string.
Proof.
  exact (blocks_come_from_lines ["intro"; "### Usage"]
           [Paragraph [mkRun "intro" DefaultFont]; Heading 3 "Usage"]
           (Heading 3 "Usage") eq_refl (or_intror (or_introl eq_refl))).
Defined.

(** X7.  The conversion adds no character: a character that occurs in no
    line of the input occurs in no text of the output. *)
Theorem texts_add_no_character (c : ascii) (lines : list string)
    (doc : document)
    (Hc : forallb (fun raw => negb (has_char c raw)) lines = true)
    (Hdoc : convert_lines lines = Ok doc) :
  Forall (fun b => Forall (fun t => has_char c t = false) (block_texts b)) doc.
Proof.
  apply (texts_without c lines doc); [|exact Hdoc].
  apply Forall_forall. intros raw Hraw. rewrite forallb_forall in Hc.
  now apply negb_true_iff, Hc.
Qed.

Lemma texts_add_no_character_witness :
  Forall (fun b => Forall (fun t => has_char "#" t = false) (block_texts b))
         [ListBullet "a"; CodeBlock "bc"].
Proof.
  exact (texts_add_no_character "#" ["- a"; "```"; "b"; "c"]
           [ListBullet "a"; CodeBlock "bc"] eq_refl eq_refl).
Defined.

(** X8.  The lines of a file are its text cut at the newlines, and the
    texts of a code block are joined with nothing between them: no text of
    the document of a file contains a newline, so a code block of several
    lines comes out as one line. *)
Theorem document_texts_have_no_newline (md_content : string) (doc : document)
    (Hdoc : convert_lines (split newline md_content) = Ok doc) :
  Forall (fun b => Forall (fun t => has_char newline t = false) (block_texts b))
         doc.
Proof.
  apply (texts_without newline (split newline md_content) doc); [|exact Hdoc].
  apply split_no_sep.
Qed.

Lemma document_texts_have_no_newline_witness :
  Forall (fun b => Forall (fun t => has_char newline t = false) (block_texts b))
         [CodeBlock "x = 1y = 2"].
Proof.
  exact (document_texts_have_no_newline
           (String.concat (String newline EmptyString) ["```"; "x = 1"; "y = 2"])
           [CodeBlock "x = 1y = 2"] eq_refl).
Defined.

(** X9.  The document has at most one block for each line of the input
    that is not blank. *)
Theorem block_count_bound (lines : list string) (doc : document)
    (Hdoc : convert_lines lines = Ok doc) :
  length doc <= length (filter (fun raw => negb (is_blank raw)) lines).
Proof.
  revert doc Hdoc. pattern lines. apply convert_ind; clear lines.
  - intros doc [= <-]. simpl. lia.
  - intros raw rest Hraw IH doc Hdoc. rewrite (convert_cons _ _ Hraw) in Hdoc.
    destruct (convert_lines rest) as [doc'|e]; [|discriminate Hdoc].
    injection Hdoc as <-. specialize (IH doc' eq_refl).
    rewrite length_app. cbn [filter].
    destruct (is_blank raw) eqn:E; cbn [negb].
    + rewrite (line_blocks_blank _ E). simpl. lia.
    + pose proof (emitted_length [raw] 0). unfold line_blocks. simpl. lia.
  - intros opening body closing rest Hopen Hbody Hclose IH doc Hdoc.
    rewrite (convert_closed _ _ _ _ Hopen Hbody Hclose) in Hdoc.
    destruct (convert_lines (closing :: rest)) as [doc'|e]; [|discriminate Hdoc].
    injection Hdoc as <-. specialize (IH doc' eq_refl).
    rewrite length_app. pose proof (code_block_length body).
    cbn [filter]. rewrite (fence_not_blank _ Hopen). cbn [negb length].
    rewrite filter_app, length_app. lia.
  - intros opening body Hopen Hbody doc Hdoc.
    rewrite (convert_unclosed _ _ Hopen Hbody) in Hdoc. injection Hdoc as <-.
    pose proof (code_block_length body).
    cbn [filter]. rewrite (fence_not_blank _ Hopen). cbn [negb length]. lia.
Qed.

Lemma block_count_bound_witness :
  length [Heading 1 "A"; CodeBlock "xy"]
  <= length (filter (fun raw => negb (is_blank raw))
                    ["# A"; EmptyString; "```"; "x"; "y"; "```"]).
Proof.
  exact (block_count_bound ["# A"; EmptyString; "```"; "x"; "y"; "```"]
           [Heading 1 "A"; CodeBlock "xy"] eq_refl).
Defined.

(** X12.  Five '#' or more make no heading: a line that is [N] '#', a
    space and a text, with [N] at least 5, becomes a paragraph that keeps its
    '#' characters. *)
Theorem deep_headings_are_paragraphs (fuel : nat) (lines : list string)
    (i : nat) (raw : string) (doc : document) (N : nat) (text : string)
    (Hi : nth_error lines i = Some raw)
    (HN : 5 <= N)
    (Hline : strip raw = (heading_prefix N ++ text)%string) :
  loop_body fuel lines (i, doc)
  = Ok (i + 1, doc ++ [Paragraph (add_runs (split "`" (strip raw)))])
  /\ String.concat "`" (map run_text (add_runs (split "`" (strip raw))))
     = (heading_prefix N ++ text)%string.
Proof.
  split; [|now rewrite add_runs_text, concat_split].
  do 5 (destruct N as [|N]; [lia|]).
  apply paragraph_branch; [exact Hi | | | | |]; rewrite Hline;
    cbn [heading_prefix String.append];
    unfold heading_rule, fence_rule, fence, bullet_rule;
    repeat (rewrite startswith_cons; cbn [Ascii.eqb Bool.eqb andb orb]);
    reflexivity.
Qed.

Lemma deep_headings_are_paragraphs_witness :
  loop_body 2 ["###### Notes"] (0, Document)
  = Ok (0 + 1,
        Document ++ [Paragraph (add_runs (split "`" (strip "###### Notes")))]).
Proof.
  exact (proj1 (deep_headings_are_paragraphs 2 ["###### Notes"] 0 "###### Notes"
                  Document 6 "Notes" eq_refl ltac:(lia) eq_refl)).
Defined.

(** * Further properties of the script *)



